(** * ScriptSense: the Streamlit script [live.py] as a state-passing program

    The script is re-executed from top to bottom on every refresh.  What
    survives between two executions is [st.session_state]; what the script
    receives are the widget values of the refresh; what it produces are calls
    to the two Gemini models and elements drawn on the page.

    The embedding keeps that shape: a record for [st.session_state], a record
    for the widget values, a log for the calls made to each model and for the
    page, and a small state monad with one control exception, the one raised
    by [st.rerun()].  Static decoration (title, markdown, subheaders, footer)
    and the API-key set-up at the top of the file are left out. *)

From Stdlib Require Import String Ascii List Bool Arith Lia.
Import ListNotations.
Local Open Scope string_scope.

Set Implicit Arguments.

(** ** Python values *)

(** Truthiness of a [str]: the empty string is falsy. *)
Definition str_truthy (s : string) : bool :=
  match s with
  | EmptyString => false
  | String _ _ => true
  end.

(** Truthiness of a value that is either [None] or a [str]. *)
Definition truthy (o : option string) : bool :=
  match o with
  | None => false
  | Some s => str_truthy s
  end.

Definition is_None {A : Type} (o : option A) : bool :=
  match o with
  | None => true
  | Some _ => false
  end.

(** [previous_language != language_option], where [previous_language] is
    [None] or a [str] and [language_option] is a [str]. *)
Definition py_ne (previous : option string) (current : string) : bool :=
  match previous with
  | None => true
  | Some p => negb (String.eqb p current)
  end.

Definition newline : string := String "010"%char EmptyString.
Definition triple_quote : string :=
  String "034"%char (String "034"%char (String "034"%char EmptyString)).

(** ** The Gemini models

    [generate_content] either raises, or returns a response whose [.text]
    raises (a blocked answer, with an optional [block_reason]), or returns a
    response with a text. *)
Inductive Reply : Type :=
| Text (t : string)
| NoText (e : string) (block_reason : option string)
| Raised (e : string).

(** ** Session state, widgets, page *)

Record SessionState (Image : Type) : Type := mkSession {
  captured_image_pil : option Image;
  analysis_result : option string;
  show_camera : bool;
  previous_language : option string
}.

(** The values the widgets of one refresh hand to the script.  A button is
    [true] in the refresh its click caused. *)
Record Widgets (Buffer : Type) : Type := mkWidgets {
  language_select : string;
  uploaded_file : option Buffer;
  activate_camera : bool;
  camera_input : option Buffer;
  clear_image : bool;
  follow_up_q : string;
  get_followup_answer : bool
}.

Inductive Element (Image : Type) : Type :=
| St_error (msg : string)
| St_info (msg : string)
| St_warning (msg : string)
| St_success (msg : string)
| St_spinner (msg : string)
| St_image (img : Image)
| St_text_area (value : string)
| St_download_button (data file_name : string).

Arguments St_error {Image} msg.
Arguments St_info {Image} msg.
Arguments St_warning {Image} msg.
Arguments St_success {Image} msg.
Arguments St_spinner {Image} msg.
Arguments St_text_area {Image} value.
Arguments St_download_button {Image} data file_name.

(** Everything one execution of the script can read and write. *)
Record Run (Image : Type) : Type := mkRun {
  session : SessionState Image;
  vision_log : list (string * Image);
  text_log : list string;
  page : list (Element Image)
}.

(** ** The script monad: state, plus the exception of [st.rerun()] *)

Inductive Flow (A : Type) : Type :=
| Ret (a : A)
| RerunException.

Arguments RerunException {A}.

Definition M (Image A : Type) : Type := Run Image -> Flow A * Run Image.

Definition ret {Image A : Type} (a : A) : M Image A := fun r => (Ret a, r).

Definition bind {Image A B : Type} (m : M Image A) (k : A -> M Image B) : M Image B :=
  fun r =>
    match m r with
    | (Ret a, r') => k a r'
    | (RerunException, r') => (RerunException, r')
    end.

Notation "x <- m ;; k" := (bind m (fun x => k))
  (at level 61, m at next level, right associativity).
Notation "m ;; k" := (bind m (fun _ => k))
  (at level 61, right associativity).

Definition st_rerun {Image A : Type} : M Image A := fun r => (RerunException, r).

Definition when {Image : Type} (b : bool) (m : M Image unit) : M Image unit :=
  if b then m else ret tt.

(** The two ways an image enters the session. *)
Inductive Source : Type :=
| upload
| camera.

Section Script.

Variables Image Buffer : Type.

(** [PIL.Image.open]: the decoded image, or the text of the exception. *)
Variable Image_open : Buffer -> Image + string.

(** The answer of each model to its [n]-th call (counted from 0) on the given
    arguments: two calls with the same arguments may be answered differently. *)
Variable model_vision : nat -> string -> Image -> Reply.
Variable model_text : nat -> string -> Reply.

Local Abbreviation Session := (SessionState Image).
Local Abbreviation Script := (M Image).

(** *** Reads and writes of [st.session_state] *)

Definition get_session : Script Session := fun r => (Ret (session r), r).

Definition modify_session (f : Session -> Session) : Script unit :=
  fun r => (Ret tt, mkRun (f (session r)) (vision_log r) (text_log r) (page r)).

Definition with_image (v : option Image) (s : Session) : Session :=
  mkSession v (analysis_result s) (show_camera s) (previous_language s).
Definition with_result (v : option string) (s : Session) : Session :=
  mkSession (captured_image_pil s) v (show_camera s) (previous_language s).
Definition with_camera (v : bool) (s : Session) : Session :=
  mkSession (captured_image_pil s) (analysis_result s) v (previous_language s).
Definition with_language (v : option string) (s : Session) : Session :=
  mkSession (captured_image_pil s) (analysis_result s) (show_camera s) v.

Definition set_captured_image_pil v : Script unit := modify_session (with_image v).
Definition set_analysis_result v : Script unit := modify_session (with_result v).
Definition set_show_camera v : Script unit := modify_session (with_camera v).
Definition set_previous_language v : Script unit := modify_session (with_language v).

(** *** Page and model calls *)

Definition draw (e : Element Image) : Script unit :=
  fun r => (Ret tt, mkRun (session r) (vision_log r) (text_log r) (page r ++ [e])).

Definition vision_generate_content (prompt : string) (img : Image) : Script Reply :=
  fun r =>
    (Ret (model_vision (length (vision_log r)) prompt img),
     mkRun (session r) (vision_log r ++ [(prompt, img)]) (text_log r) (page r)).

Definition text_generate_content (prompt : string) : Script Reply :=
  fun r =>
    (Ret (model_text (length (text_log r)) prompt),
     mkRun (session r) (vision_log r) (text_log r ++ [prompt]) (page r)).

(** The inner [try] of both wrappers: [response.prompt_feedback.block_reason]
    is looked up, and anything that goes wrong there ([response] unbound
    included) is swallowed. *)
Definition report_block_reason (reply : Reply) : Script unit :=
  match reply with
  | NoText _ (Some reason) => draw (St_error ("Content blocked due to: " ++ reason))
  | _ => ret tt
  end.

(** *** Functions of the script *)

Definition vision_prompt (lang_opt : string) : string :=
  "Extract all the handwritten text from this image. Then translate it to "
  ++ lang_opt
  ++ ". Also summarize and analyze it for meaning, intent, and any action points.".

Definition process_image_with_gemini (pil_image : Image) (lang_opt : string)
  : Script (option string) :=
  response <- vision_generate_content (vision_prompt lang_opt) pil_image ;;
  match response with
  | Text t => ret (Some t)
  | NoText e _ | Raised e =>
      draw (St_error ("Error during Gemini Vision processing: " ++ e)) ;;
      report_block_reason response ;;
      ret None
  end.

Definition followup_prompt (previous_text user_question : string) : string :=
  "Given the previous text analysis:" ++ newline ++ newline
  ++ triple_quote ++ newline ++ previous_text ++ newline ++ triple_quote
  ++ newline ++ newline ++ "Answer this question: " ++ user_question.

Definition get_followup_response (previous_text user_question : string)
  : Script (option string) :=
  response <- text_generate_content (followup_prompt previous_text user_question) ;;
  match response with
  | Text t => ret (Some t)
  | NoText e _ | Raised e =>
      draw (St_error ("Error during Gemini Text follow-up: " ++ e)) ;;
      report_block_reason response ;;
      ret None
  end.

(** *** Column 1: input image *)

(** The handler of the camera button. *)
Definition activate_camera_button : Script unit :=
  s <- get_session ;;
  set_show_camera (negb (show_camera s)) ;;
  s <- get_session ;;
  when (negb (show_camera s))
    (set_captured_image_pil None ;;
     set_analysis_result None).

(** A photo was taken.  [st.rerun()] raises a control exception that
    [except Exception] does not catch, so the script stops there. *)
Definition camera_capture (camera_img_file_buffer : Buffer) : Script unit :=
  match Image_open camera_img_file_buffer with
  | inl pil_image_cam =>
      set_captured_image_pil (Some pil_image_cam) ;;
      set_analysis_result None ;;
      set_show_camera false ;;
      st_rerun
  | inr e =>
      draw (St_error ("Could not process camera image: " ++ e)) ;;
      set_captured_image_pil None
  end.

(** A file sits in the uploader. *)
Definition uploaded_file_handler (uploaded_file : Buffer) : Script unit :=
  match Image_open uploaded_file with
  | inl pil_image_upload =>
      set_captured_image_pil (Some pil_image_upload) ;;
      set_analysis_result None ;;
      set_show_camera false
  | inr e =>
      draw (St_error ("Could not process uploaded image: " ++ e)) ;;
      set_captured_image_pil None
  end.

(** A submission, by its source. *)
Definition submit_image (source : Source) (buffer : Buffer) : Script unit :=
  match source with
  | camera => camera_capture buffer
  | upload => uploaded_file_handler buffer
  end.

(** The handler of the clear button. *)
Definition clear_image_button : Script unit :=
  set_captured_image_pil None ;;
  set_analysis_result None ;;
  set_show_camera false ;;
  st_rerun.

Definition col1 (w : Widgets Buffer) : Script unit :=
  when (activate_camera w) activate_camera_button ;;
  s <- get_session ;;
  when (show_camera s)
    (draw (St_info "Camera is active. Position your handwritten note.") ;;
     match camera_input w with
     | Some camera_img_file_buffer => camera_capture camera_img_file_buffer
     | None => ret tt
     end) ;;
  match uploaded_file w with
  | Some f => uploaded_file_handler f
  | None => ret tt
  end ;;
  s <- get_session ;;
  match captured_image_pil s with
  | Some img =>
      draw (St_image img) ;;
      when (clear_image w) clear_image_button
  | None => ret tt
  end.

(** *** Column 2: analysis and display *)

Definition failure_placeholder : string :=
  "Analysis failed. Please try a different image or check logs.".

(** The analysis block, entered with [img] the image held by the session.
    The value returned is the local variable [analysis] when the model was
    called, and [None] when the block was skipped. *)
Definition ensure_analysis (img : Image) (language_option : string)
  : Script (option (option string)) :=
  s <- get_session ;;
  let language_changed := py_ne (previous_language s) language_option in
  if is_None (analysis_result s) || language_changed then
    draw (St_spinner ("Analyzing handwriting & translating to "
                      ++ language_option ++ "...")) ;;
    analysis <- process_image_with_gemini img language_option ;;
    (if truthy analysis then
       set_analysis_result analysis ;;
       set_previous_language (Some language_option)
     else
       when language_changed
         (set_analysis_result (Some failure_placeholder))) ;;
    ret (Some analysis)
  else
    ret None.

(** The follow-up question, asked about [result], the text held in
    [analysis_result]. *)
Definition follow_up (result user_q : string) (clicked : bool) : Script unit :=
  when (str_truthy user_q && clicked)
    (draw (St_spinner "Generating follow-up response...") ;;
     followup_text <- get_followup_response result user_q ;;
     match followup_text with
     | Some t =>
         if str_truthy t then draw (St_success t)
         else draw (St_warning "Could not get a follow-up response.")
     | None => draw (St_warning "Could not get a follow-up response.")
     end).

Definition download_name (language_option : string) : string :=
  "ScriptSense_Analysis_" ++ language_option ++ ".txt".

Definition show_result (w : Widgets Buffer) : Script unit :=
  s <- get_session ;;
  match analysis_result s with
  | Some result =>
      when (str_truthy result)
        (draw (St_text_area result) ;;
         draw (St_download_button result (download_name (language_select w))) ;;
         follow_up result (follow_up_q w) (get_followup_answer w))
  | None => ret tt
  end.

Definition col2 (w : Widgets Buffer) : Script unit :=
  s <- get_session ;;
  match captured_image_pil s with
  | Some img =>
      ensure_analysis img (language_select w) ;;
      show_result w
  | None => draw (St_info "Upload an image or use the camera to get started.")
  end.

Definition script (w : Widgets Buffer) : Script unit :=
  col1 w ;;
  col2 w.

(** *** Refresh: one execution and the re-executions it asks for

    A re-execution sees the same widget values, except that no button is
    pressed any more. *)
Definition reset_triggers (w : Widgets Buffer) : Widgets Buffer :=
  mkWidgets (language_select w) (uploaded_file w) false (camera_input w)
            false (follow_up_q w) false.

Fixpoint refresh (fuel : nat) (w : Widgets Buffer) (r : Run Image)
  : option (Run Image) :=
  match fuel with
  | O => None
  | S fuel' =>
      match script w r with
      | (Ret _, r') => Some r'
      | (RerunException, r') => refresh fuel' (reset_triggers w) r'
      end
  end.

End Script.

(** ** Measures on executions *)

(** The session an execution [m] leaves behind when started in [r]. *)
Definition session_after {Image A : Type} (m : M Image A) (r : Run Image)
  : SessionState Image :=
  session (snd (m r)).

(** The number of calls to the vision model made by [m] when started in [r]. *)
Definition vision_calls {Image A : Type} (m : M Image A) (r : Run Image) : nat :=
  length (vision_log (snd (m r))) - length (vision_log r).

(** What [process_image_with_gemini] returns for a reply of the model. *)
Definition analysis_of (reply : Reply) : option string :=
  match reply with
  | Text t => Some t
  | NoText _ _ | Raised _ => None
  end.

(** Whether the analysis block called the model and got nothing usable: the
    [else] branch of [if analysis]. *)
Definition attempt_failed (outcome : option (option string)) : bool :=
  match outcome with
  | Some analysis => negb (truthy analysis)
  | None => false
  end.

(** The session left by a sequence of executions, each started where the
    one before stopped, whether it returned or asked for a rerun. *)
Fixpoint run_all {Image : Type} (ms : list (M Image unit)) (r : Run Image)
  : Run Image :=
  match ms with
  | [] => r
  | m :: ms' => run_all ms' (snd (m r))
  end.

(** ** A concrete setting, to evaluate the script on

    Images and file buffers are named by strings; the empty buffer does not
    decode. *)
Module Sample.

Definition decode (buffer : string) : string + string :=
  if str_truthy buffer then inl buffer else inr "cannot identify image file".

Definition vision_down : nat -> string -> string -> Reply :=
  fun _ _ _ => Raised "503 Service Unavailable".

Definition vision_up : nat -> string -> string -> Reply :=
  fun _ prompt _ => Text ("Transcript. " ++ prompt).

Definition text_up : nat -> string -> Reply :=
  fun _ _ => Text "Yes.".

(** The session as its initialisation leaves it, nothing called or drawn. *)
Definition initial : Run string :=
  mkRun (mkSession None None false None) [] [] [].

(** Refreshes: the camera button is pressed; a photo is taken; nothing
    happens. *)
Definition press_camera (language : string) : Widgets string :=
  mkWidgets language None true None false EmptyString false.

Definition take_photo (language photo : string) : Widgets string :=
  mkWidgets language None false (Some photo) false EmptyString false.

Definition idle (language : string) : Widgets string :=
  mkWidgets language None false None false EmptyString false.

(** A session that has just received its first image. *)
Definition image_ready : Run string :=
  mkRun (mkSession (Some "note.png") None false None) [] [] [].

(** A session whose image was analysed for French. *)
Definition analysed_french : Run string :=
  mkRun (mkSession (Some "note.png")
                   (Some ("Transcript. " ++ vision_prompt "French"))
                   false (Some "French"))
        [(vision_prompt "French", "note.png")] [] [].

(** The same session after the image was replaced: the result is gone, the
    language of the last analysis is still recorded. *)
Definition replaced_french : Run string :=
  mkRun (mkSession (Some "memo.png") None false (Some "French"))
        [(vision_prompt "French", "note.png")] [] [].

(** The camera is open on an empty session. *)
Definition camera_open : Run string :=
  mkRun (mkSession None None true None) [] [] [].

(** A refresh in which a file sits in the uploader and a photo was taken. *)
Definition upload_and_photo : Widgets string :=
  mkWidgets "English" (Some "upload.png") false (Some "photo.jpg") false
            EmptyString false.

(** A refresh in which German is selected and a question is asked. *)
Definition asking_in_german : Widgets string :=
  mkWidgets "German" None false None false "What is the deadline?" true.

(** The session a refresh ends with. *)
Definition session_of (r : option (Run string)) : option (SessionState string) :=
  option_map (@session string) r.

End Sample.

(** ** Sequences of refreshes, and what they keep *)

Section Sessions.

Variables Image Buffer : Type.
Variable Image_open : Buffer -> Image + string.
Variable model_vision : nat -> string -> Image -> Reply.
Variable model_text : nat -> string -> Reply.

(** One refresh after the other, each one followed through its rerun. *)
Fixpoint refresh_all (ws : list (Widgets Buffer)) (r : Run Image)
  : option (Run Image) :=
  match ws with
  | [] => Some r
  | w :: ws' =>
      match refresh Image_open model_vision model_text 2 w r with
      | Some r' => refresh_all ws' r'
      | None => None
      end
  end.

(** The stored result is [None] or a non-empty string: the test
    [if st.session_state.analysis_result] then says whether one is stored. *)
Definition result_displayable (s : SessionState Image) : bool :=
  match analysis_result s with
  | Some t => str_truthy t
  | None => true
  end.

(** The stored result belongs to the stored image: when both are there, the
    last call to the vision model was made for that image, and the result is
    the failure placeholder or the text the model gave to that call, asked
    for the recorded language. *)
Definition result_matches_image (r : Run Image) : Prop :=
  forall (img : Image) (t : string),
    captured_image_pil (session r) = Some img ->
    analysis_result (session r) = Some t ->
    exists earlier prompt,
      vision_log r = (earlier ++ [(prompt, img)])%list /\
      (t = failure_placeholder \/
       exists lang,
         prompt = vision_prompt lang /\
         previous_language (session r) = Some lang /\
         model_vision (length earlier) prompt img = Text t).

End Sessions.

(** ** The start of the script: API key and models *)

(** [st.secrets.get(...)]: it returns a value ([None] when the key is not
    there), or raises one of the two exceptions the script catches, or raises
    another one. *)
Inductive SecretsLookup : Type :=
| Returned (value : option string)
| FileNotFoundError_or_KeyError
| OtherError.

(** How a part of the start ends: the script goes on with a value, or
    [st.stop()] ends the execution, or an exception nobody catches does. *)
Inductive Startup (A : Type) : Type :=
| Proceed (a : A)
| Stopped
| Uncaught.

Arguments Stopped {A}.
Arguments Uncaught {A}.

(** The test [if not GEMINI_API_KEY] and what follows it. *)
Definition check_api_key {Image : Type}
  (drawn : list (Element Image)) (GEMINI_API_KEY : option string)
  : list (Element Image) * Startup string :=
  match GEMINI_API_KEY with
  | Some (String c k) => (drawn, Proceed (String c k))
  | _ =>
      ((drawn ++ [St_error
         "Gemini API Key is not configured. Please set it up to use the app."])%list,
       Stopped)
  end.

(** The key is looked up in the secrets; the environment variable and then
    the text input are the fallbacks of the [except] block.  [environ] is
    the value of [os.environ.get], [text_input] the value of the widget. *)
Definition load_api_key {Image : Type}
  (secrets : SecretsLookup) (environ : option string) (text_input : string)
  : list (Element Image) * Startup string :=
  match secrets with
  | Returned value => check_api_key [] value
  | FileNotFoundError_or_KeyError =>
      if truthy environ then check_api_key [] environ
      else
        check_api_key
          [St_warning
             "GEMINI_API_KEY not found in secrets or environment. Please enter it below."]
          (Some text_input)
  | OtherError => ([], Uncaught)
  end.

(** The two entries of [st.session_state] that hold the models. *)
Record ModelSlots (Model : Type) : Type := mkSlots {
  model_vision_slot : option Model;
  model_text_slot : option Model
}.

Section Models.

Variables Image Model : Type.

(** [genai.configure]: [None] when it returns, the text of the exception
    when it raises. *)
Variable configure : string -> option string.

(** [genai.GenerativeModel], at its [n]-th call of the session: the model,
    or the text of the exception. *)
Variable GenerativeModel : nat -> string -> Model + string.

(** The [except] block of the initialisation. *)
Definition init_failed {A : Type} (e : string)
  : list (Element Image) * Startup A :=
  ([St_error ("Error initializing Gemini Models or configuring API key: " ++ e);
    St_error
      "Please ensure your API key is valid and has access to 'gemini-pro-vision' and 'gemini-pro' models."],
   Stopped).

(** A model is made only when its entry is not in the session state.  The
    value is the entry afterwards and the number of models made so far, or
    the text of the exception. *)
Definition ensure_model (made : nat) (slot : option Model)
  : (Model * nat) + string :=
  match slot with
  | Some m => inl (m, made)
  | None =>
      match GenerativeModel made "gemini-2.0-flash" with
      | inl m => inl (m, S made)
      | inr e => inr e
      end
  end.

(** The [try] block: the entries and the number of models made afterwards,
    what was drawn, and the two models the script goes on with. *)
Definition init_models (GEMINI_API_KEY : string) (made : nat) (slots : ModelSlots Model)
  : (ModelSlots Model * nat) * (list (Element Image) * Startup (Model * Model)) :=
  match configure GEMINI_API_KEY with
  | Some e => ((slots, made), init_failed e)
  | None =>
      match ensure_model made (model_vision_slot slots) with
      | inr e => ((slots, S made), init_failed e)
      | inl (mv, made1) =>
          let slots1 := mkSlots (Some mv) (model_text_slot slots) in
          match ensure_model made1 (model_text_slot slots) with
          | inr e => ((slots1, S made1), init_failed e)
          | inl (mt, made2) =>
              ((mkSlots (Some mv) (Some mt), made2), ([], Proceed (mv, mt)))
          end
      end
  end.

End Models.

(** ** More of the concrete setting *)

Module Story.

Import Sample.


(** The clear button is pressed. *)
Definition press_clear (language : string) : Widgets string :=
  mkWidgets language None false None true EmptyString false.

(** The camera is open on the session analysed for French. *)
Definition camera_reopened : Run string :=
  mkRun (mkSession (Some "note.png")
                   (Some ("Transcript. " ++ vision_prompt "French"))
                   true (Some "French"))
        [(vision_prompt "French", "note.png")] [] [].

(** The camera is opened, a note is photographed and analysed for French;
    German is selected and a question asked; the image is cleared. *)
Definition afternoon : list (Widgets string) :=
  [press_camera "French"; take_photo "French" "note.png"; idle "German";
   asking_in_german; press_clear "German"].

(** [genai.configure] accepts every key but the one called "revoked". *)
Definition configure (key : string) : option string :=
  if String.eqb key "revoked" then Some "API key not valid" else None.

(** Models are named by the order in which they were made. *)
Definition GenerativeModel (n : nat) (name : string) : nat + string :=
  inl n.

End Story.

(** * Properties *)

Unset Implicit Arguments.

Section Properties.

Variables Image Buffer : Type.
Variable Image_open : Buffer -> Image + string.
Variable model_vision : nat -> string -> Image -> Reply.
Variable model_text : nat -> string -> Reply.

(** Unfolds the monadic plumbing of the script. *)
Ltac plumbing :=
  cbv [bind ret when st_rerun get_session modify_session draw
       set_captured_image_pil set_analysis_result set_show_camera
       set_previous_language with_image with_result with_camera with_language
       vision_generate_content text_generate_content report_block_reason
       session_after vision_calls] in *;
  cbn [fst snd session vision_log text_log page captured_image_pil
       analysis_result show_camera previous_language] in *.

(** Closes a goal asking what was drawn on the page. *)
Ltac drawn :=
  first [ exists []; rewrite app_nil_r; reflexivity
        | eexists; rewrite <- ?app_assoc; reflexivity ].

(** ** Python values *)

Lemma py_ne_false (previous : option string) (current : string) :
  py_ne previous current = false <-> previous = Some current.
Proof.
  destruct previous as [p|]; cbn.
  - rewrite negb_false_iff, String.eqb_eq. split; congruence.
  - split; discriminate.
Qed.

Lemma py_ne_true (previous : option string) (current : string) :
  py_ne previous current = true <-> previous <> Some current.
Proof.
  rewrite <- py_ne_false. destruct (py_ne previous current); split; congruence.
Qed.

Lemma py_ne_same (l : string) : py_ne (Some l) l = false.
Proof. now apply py_ne_false. Qed.

Lemma truthy_not_None (o : option string) : truthy o = true -> is_None o = false.
Proof. destruct o; [reflexivity|discriminate]. Qed.

(** ** The wrapper of the vision model *)

Lemma process_image_with_gemini_run (img : Image) (lang : string) (r : Run Image) :
  exists drawn,
    process_image_with_gemini model_vision img lang r =
    (Ret (analysis_of (model_vision (length (vision_log r)) (vision_prompt lang) img)),
     mkRun (session r) (vision_log r ++ [(vision_prompt lang, img)]) (text_log r)
           (page r ++ drawn)).
Proof.
  unfold process_image_with_gemini. plumbing.
  destruct (model_vision _ _ _) as [t|e [reason|]|e];
    cbn [analysis_of session vision_log text_log page]; drawn.
Qed.

(** ** The analysis block *)

(** Cache hit: nothing is called, nothing changes. *)
Lemma ensure_analysis_hit (img : Image) (lang : string) (r : Run Image) :
  is_None (analysis_result (session r)) || py_ne (previous_language (session r)) lang = false ->
  ensure_analysis model_vision img lang r = (Ret None, r).
Proof.
  intros H. unfold ensure_analysis. plumbing. now rewrite H.
Qed.

(** Cache miss: the model is called once, and the session is updated from
    what the wrapper returned. *)
Lemma ensure_analysis_miss (img : Image) (lang : string) (r : Run Image) :
  is_None (analysis_result (session r)) || py_ne (previous_language (session r)) lang = true ->
  let analysis := analysis_of (model_vision (length (vision_log r)) (vision_prompt lang) img) in
  exists drawn,
    ensure_analysis model_vision img lang r =
    (Ret (Some analysis),
     mkRun (if truthy analysis then
              with_language (Some lang) (with_result analysis (session r))
            else if py_ne (previous_language (session r)) lang then
              with_result (Some failure_placeholder) (session r)
            else session r)
           (vision_log r ++ [(vision_prompt lang, img)]) (text_log r)
           (page r ++ drawn)).
Proof.
  intros H analysis. unfold ensure_analysis.
  destruct (process_image_with_gemini_run img lang (mkRun (session r) (vision_log r) (text_log r)
     (page r ++ [St_spinner ("Analyzing handwriting & translating to " ++ lang ++ "...")])))
    as [pg Hp].
  cbn [session vision_log text_log page] in Hp. fold analysis in Hp.
  plumbing. rewrite H.
  unfold bind in Hp |- *.
  destruct r as [s vl tl p]; cbn [session vision_log text_log page] in *.
  rewrite Hp.
  destruct (truthy analysis); [drawn|].
  destruct (py_ne (previous_language s) lang);
    cbn [session vision_log text_log page]; drawn.
Qed.

(** The block never touches the image, and never asks for a rerun. *)
Lemma ensure_analysis_returns (img : Image) (lang : string) (r : Run Image) :
  exists outcome r',
    ensure_analysis model_vision img lang r = (Ret outcome, r') /\
    captured_image_pil (session r') = captured_image_pil (session r) /\
    show_camera (session r') = show_camera (session r) /\
    text_log r' = text_log r.
Proof.
  destruct (is_None (analysis_result (session r))
            || py_ne (previous_language (session r)) lang) eqn:H.
  - destruct (ensure_analysis_miss img lang r H) as [pg E].
    do 2 eexists. split; [exact E|]. cbn [session text_log].
    destruct (truthy _); [repeat split|].
    destruct (py_ne _ _); repeat split.
  - do 2 eexists. split; [now apply ensure_analysis_hit|repeat split].
Qed.

(** After an attempt that failed, the next one calls the model again. *)
Lemma ensure_analysis_retry_after_failure
  (img : Image) (lang : string) (r r1 : Run Image) (analysis : option string) :
  ensure_analysis model_vision img lang r = (Ret (Some analysis), r1) ->
  truthy analysis = false ->
  vision_log (snd (ensure_analysis model_vision img lang r1)) =
  (vision_log r1 ++ [(vision_prompt lang, img)])%list.
Proof.
  intros E F.
  destruct (is_None (analysis_result (session r))
            || py_ne (previous_language (session r)) lang) eqn:H.
  - destruct (ensure_analysis_miss img lang r H) as [pg E'].
    rewrite E' in E. injection E as Ha Hr. rewrite Ha in Hr. rewrite F in Hr.
    assert (H1 : is_None (analysis_result (session r1))
                 || py_ne (previous_language (session r1)) lang = true).
    { subst r1. cbn [session]. destruct (py_ne (previous_language (session r)) lang) eqn:P.
      - cbn. exact P.
      - rewrite P. exact H. }
    destruct (ensure_analysis_miss img lang r1 H1) as [pg1 E1].
    rewrite E1. reflexivity.
  - rewrite (ensure_analysis_hit img lang r H) in E. discriminate.
Qed.

(** C1 (amended): with the image set, when a first [ensure_analysis] for a
    language did not fail (it was itself a cache hit, or its call to the model
    gave a non-empty text), a second one for the same language calls nothing
    and leaves the whole state, and so the existing result, as it is; the two
    together call the model at most once. *)
Theorem ensure_analysis_twice_same_language
  (img : Image) (lang : string) (r r1 : Run Image) (outcome : option (option string)) :
  captured_image_pil (session r) = Some img ->
  ensure_analysis model_vision img lang r = (Ret outcome, r1) ->
  attempt_failed outcome = false ->
  captured_image_pil (session r1) = Some img /\
  ensure_analysis model_vision img lang r1 = (Ret None, r1) /\
  length (vision_log r1) <= S (length (vision_log r)).
Proof.
  intros Himg E F.
  destruct (is_None (analysis_result (session r))
            || py_ne (previous_language (session r)) lang) eqn:H.
  - destruct (ensure_analysis_miss img lang r H) as [pg E'].
    rewrite E' in E. injection E as Ha Hr. subst outcome.
    unfold attempt_failed in F. apply negb_false_iff in F. rewrite F in Hr. subst r1.
    cbn [session vision_log]. repeat split.
    + exact Himg.
    + apply ensure_analysis_hit.
      cbn [session analysis_result previous_language with_language with_result].
      rewrite (truthy_not_None _ F), py_ne_same. reflexivity.
    + rewrite length_app. cbn. lia.
  - rewrite (ensure_analysis_hit img lang r H) in E. injection E as _ Hr. subst r1.
    repeat split.
    + exact Himg.
    + now apply ensure_analysis_hit.
    + lia.
Qed.

(** C2 (amended): with no result held, a failing call to the model ends the
    attempt as a failure; the result stays absent when the language of the
    last successful analysis is the requested one, and becomes the failure
    placeholder when it is another one or none was recorded yet. *)
Theorem ensure_analysis_first_failure (img : Image) (lang : string) (r : Run Image) :
  captured_image_pil (session r) = Some img ->
  analysis_result (session r) = None ->
  truthy (analysis_of (model_vision (length (vision_log r)) (vision_prompt lang) img)) = false ->
  exists analysis r',
    ensure_analysis model_vision img lang r = (Ret (Some analysis), r') /\
    truthy analysis = false /\
    (previous_language (session r) = Some lang ->
     analysis_result (session r') = None) /\
    (previous_language (session r) <> Some lang ->
     analysis_result (session r') = Some failure_placeholder).
Proof.
  intros _ Hres Hfail.
  assert (H : is_None (analysis_result (session r))
              || py_ne (previous_language (session r)) lang = true)
    by now rewrite Hres.
  destruct (ensure_analysis_miss img lang r H) as [pg E].
  do 2 eexists. split; [exact E|]. split; [exact Hfail|].
  cbn [session]. rewrite Hfail. split; intros P.
  - apply py_ne_false in P. rewrite P. exact Hres.
  - apply py_ne_true in P. rewrite P. reflexivity.
Qed.

(** C6: in a state reached by a successful analysis for one language, an
    [ensure_analysis] for another language calls the vision model exactly
    once, for the held image and the new language. *)
Theorem language_change_recomputes_once
  (img : Image) (lang lang' t : string) (r0 r1 : Run Image) :
  captured_image_pil (session r0) = Some img ->
  ensure_analysis model_vision img lang r0 = (Ret (Some (Some t)), r1) ->
  str_truthy t = true ->
  lang' <> lang ->
  vision_log (snd (ensure_analysis model_vision img lang' r1)) =
    (vision_log r1 ++ [(vision_prompt lang', img)])%list /\
  vision_calls (ensure_analysis model_vision img lang') r1 = 1.
Proof.
  intros _ E T D.
  assert (P : previous_language (session r1) = Some lang).
  { destruct (is_None (analysis_result (session r0))
              || py_ne (previous_language (session r0)) lang) eqn:H.
    - destruct (ensure_analysis_miss img lang r0 H) as [pg E'].
      rewrite E' in E. injection E as Ha Hr. rewrite Ha in Hr. cbn [truthy] in Hr.
      rewrite T in Hr. subst r1. reflexivity.
    - rewrite (ensure_analysis_hit img lang r0 H) in E. discriminate. }
  assert (H1 : is_None (analysis_result (session r1))
               || py_ne (previous_language (session r1)) lang' = true).
  { rewrite P. cbn. apply orb_true_iff. right.
    apply negb_true_iff, String.eqb_neq. congruence. }
  destruct (ensure_analysis_miss img lang' r1 H1) as [pg E1].
  unfold vision_calls. rewrite E1. cbn [snd vision_log]. split; [reflexivity|].
  rewrite length_app. cbn. lia.
Qed.

(** ** The handlers of column 1 *)

(** A submission that decodes, whatever its source. *)
Lemma submit_image_decoded
  (source : Source) (buffer : Buffer) (bitmap : Image) (r : Run Image) :
  Image_open buffer = inl bitmap ->
  session_after (submit_image Image_open source buffer) r =
    mkSession (Some bitmap) None false (previous_language (session r)).
Proof.
  intros D. destruct source; unfold submit_image, camera_capture, uploaded_file_handler;
    rewrite D; plumbing; reflexivity.
Qed.

(** C3 (amended): the clear button empties the image and the result and
    switches the camera off, for every prior state; it leaves the language of
    the last analysis as recorded, and pressing it again changes nothing. *)
Theorem clear_image_button_effect (r : Run Image) :
  let r' := snd (clear_image_button (Image := Image) r) in
  session r' = mkSession None None false (previous_language (session r)) /\
  snd (clear_image_button (Image := Image) r') = r'.
Proof.
  unfold clear_image_button. plumbing. split; reflexivity.
Qed.

(** C4 (amended): a submission that decodes, from the camera or from the
    uploader, leaves the image equal to the decoded bitmap, no result, the
    camera off, and the language of the last analysis as recorded. *)
Theorem submit_image_effect (buffer : Buffer) (bitmap : Image) (r : Run Image) :
  Image_open buffer = inl bitmap ->
  session_after (camera_capture Image_open buffer) r =
    mkSession (Some bitmap) None false (previous_language (session r)) /\
  session_after (uploaded_file_handler Image_open buffer) r =
    mkSession (Some bitmap) None false (previous_language (session r)).
Proof.
  intros D. split.
  - apply (submit_image_decoded camera buffer bitmap r D).
  - apply (submit_image_decoded upload buffer bitmap r D).
Qed.

(** C5 (amended): a submission that does not decode raises nothing: the
    handler returns after drawing the error.  The result, the camera flag,
    the recorded language and the call logs are as before, and the image is
    absent afterwards, whether or not one was held. *)
Theorem decode_failure_effect (buffer : Buffer) (e : string) (r : Run Image) :
  Image_open buffer = inr e ->
  camera_capture Image_open buffer r =
    (Ret tt,
     mkRun (with_image None (session r)) (vision_log r) (text_log r)
           (page r ++ [St_error ("Could not process camera image: " ++ e)])) /\
  uploaded_file_handler Image_open buffer r =
    (Ret tt,
     mkRun (with_image None (session r)) (vision_log r) (text_log r)
           (page r ++ [St_error ("Could not process uploaded image: " ++ e)])).
Proof.
  intros D. unfold camera_capture, uploaded_file_handler. rewrite D.
  plumbing. split; reflexivity.
Qed.

(** C9: two presses of the camera button with nothing in between leave no
    image and no result, for every prior state. *)
Theorem camera_toggled_twice_resets (r : Run Image) :
  let r' := run_all [activate_camera_button (Image := Image);
                     activate_camera_button (Image := Image)] r in
  captured_image_pil (session r') = None /\
  analysis_result (session r') = None.
Proof.
  cbn [run_all]. unfold activate_camera_button. plumbing.
  destruct (show_camera (session r)); cbn; split; reflexivity.
Qed.

(** ** The follow-up question *)

Lemma get_followup_response_run (result user_q : string) (r : Run Image) :
  exists drawn,
    get_followup_response model_text result user_q r =
    (Ret (analysis_of (model_text (length (text_log r)) (followup_prompt result user_q))),
     mkRun (session r) (vision_log r)
           (text_log r ++ [followup_prompt result user_q]) (page r ++ drawn)).
Proof.
  unfold get_followup_response. plumbing.
  destruct (model_text _ _) as [t|e [reason|]|e];
    cbn [analysis_of session vision_log text_log page]; drawn.
Qed.

Lemma follow_up_run (result user_q : string) (clicked : bool) (r : Run Image) :
  exists drawn,
    follow_up model_text result user_q clicked r =
    (Ret tt,
     mkRun (session r) (vision_log r)
           (if str_truthy user_q && clicked
            then text_log r ++ [followup_prompt result user_q]
            else text_log r) (page r ++ drawn)).
Proof.
  unfold follow_up, when.
  destruct (str_truthy user_q && clicked).
  - destruct (get_followup_response_run result user_q
                (mkRun (session r) (vision_log r) (text_log r)
                       (page r ++ [St_spinner "Generating follow-up response..."])))
      as [pg E].
    unfold bind, draw. rewrite E.
    destruct (analysis_of _) as [t|]; [destruct (str_truthy t)|];
      cbn [session vision_log text_log page]; drawn.
  - destruct r; unfold ret; cbn [session vision_log text_log page]; drawn.
Qed.

Lemma show_result_run (w : Widgets Buffer) (r : Run Image) :
  exists tl drawn,
    show_result model_text w r =
    (Ret tt, mkRun (session r) (vision_log r) tl (page r ++ drawn)).
Proof.
  unfold show_result, bind at 1, get_session.
  destruct (analysis_result (session r)) as [result|].
  - unfold when. destruct (str_truthy result).
    + unfold bind at 1 2, draw. cbn [session vision_log text_log page].
      match goal with |- context [follow_up _ _ _ _ ?r0] =>
        destruct (follow_up_run result (follow_up_q w) (get_followup_answer w) r0)
          as [pg E] end.
      rewrite E. cbn [session vision_log text_log page]. eexists. drawn.
    + exists (text_log r).
      destruct r; unfold ret; cbn [session vision_log text_log page]; drawn.
  - exists (text_log r).
    destruct r; unfold ret; cbn [session vision_log text_log page]; drawn.
Qed.

(** C7: asking a follow-up question leaves the whole session state as it
    was, for every result, every question and every answer or failure of the
    text model; so do the wrapper it calls and the display block around it. *)
Theorem follow_up_keeps_session
  (result user_q : string) (clicked : bool) (w : Widgets Buffer) (r : Run Image) :
  follow_up model_text result user_q clicked r
    = (Ret tt, snd (follow_up model_text result user_q clicked r)) /\
  session_after (follow_up model_text result user_q clicked) r = session r /\
  session_after (get_followup_response model_text result user_q) r = session r /\
  session_after (show_result model_text w) r = session r.
Proof.
  unfold session_after.
  destruct (follow_up_run result user_q clicked r) as [pg E].
  destruct (get_followup_response_run result user_q r) as [pg' E'].
  destruct (show_result_run w r) as (tl & pg'' & E'').
  rewrite E, E', E''. repeat split.
Qed.

(** ** Column 2 as a whole *)

Lemma bind_Ret {A B : Type} (m : M Image A) (k : A -> M Image B)
  (r r' : Run Image) (a : A) :
  m r = (Ret a, r') -> bind m k r = k a r'.
Proof. intros E. unfold bind. now rewrite E. Qed.

Lemma bind_Rerun {A B : Type} (m : M Image A) (k : A -> M Image B)
  (r r' : Run Image) :
  m r = (RerunException, r') -> bind m k r = (RerunException, r').
Proof. intros E. unfold bind. now rewrite E. Qed.

(** Column 2 returns, and keeps the image and the camera flag. *)
Lemma col2_returns (w : Widgets Buffer) (r : Run Image) :
  exists r',
    col2 model_vision model_text w r = (Ret tt, r') /\
    captured_image_pil (session r') = captured_image_pil (session r) /\
    show_camera (session r') = show_camera (session r).
Proof.
  unfold col2, bind at 1, get_session.
  destruct (captured_image_pil (session r)) as [img|] eqn:Himg.
  - destruct (ensure_analysis_returns img (language_select w) r)
      as (outcome & r1 & E & I & K & _).
    erewrite bind_Ret by exact E.
    destruct (show_result_run w r1) as (tl & pg & E1).
    rewrite E1. eexists. split; [reflexivity|].
    cbn [session]. split; congruence.
  - eexists. split; [reflexivity|]. split; [exact Himg|reflexivity].
Qed.

(** C10: when the analysis fails while the requested language is not the
    recorded one, the session holds the fixed placeholder as its result;
    being a non-empty string it is then drawn in the result area, offered for
    download under the name of the requested language, and, when a question
    is asked, sent as the context of the call made to the text model. *)
Theorem failed_language_change_shows_placeholder
  (img : Image) (w : Widgets Buffer) (r : Run Image) :
  captured_image_pil (session r) = Some img ->
  previous_language (session r) <> Some (language_select w) ->
  truthy (analysis_of (model_vision (length (vision_log r))
                                    (vision_prompt (language_select w)) img)) = false ->
  let r' := snd (col2 model_vision model_text w r) in
  failure_placeholder =
    "Analysis failed. Please try a different image or check logs." /\
  analysis_result (session r') = Some failure_placeholder /\
  In (St_text_area failure_placeholder) (page r') /\
  In (St_download_button failure_placeholder (download_name (language_select w)))
     (page r') /\
  (str_truthy (follow_up_q w) && get_followup_answer w = true ->
   text_log r' =
   (text_log r ++ [followup_prompt failure_placeholder (follow_up_q w)])%list).
Proof.
  intros Himg P F r'. apply py_ne_true in P.
  assert (R : exists before after,
             r' = mkRun (with_result (Some failure_placeholder) (session r))
                        (vision_log r ++ [(vision_prompt (language_select w), img)])
                        (if str_truthy (follow_up_q w) && get_followup_answer w
                         then text_log r
                              ++ [followup_prompt failure_placeholder (follow_up_q w)]
                         else text_log r)
                        ((page r ++ before)
                         ++ [St_text_area failure_placeholder;
                             St_download_button failure_placeholder
                               (download_name (language_select w))]
                         ++ after)).
  { assert (H : is_None (analysis_result (session r))
                || py_ne (previous_language (session r)) (language_select w) = true)
      by (rewrite P; apply orb_true_r).
    destruct (ensure_analysis_miss img (language_select w) r H) as [before E].
    rewrite F, P in E. subst r'.
    unfold col2, bind at 1, get_session. rewrite Himg.
    erewrite bind_Ret by exact E.
    unfold show_result, bind at 1, get_session.
    cbn [session analysis_result with_result when str_truthy failure_placeholder].
    unfold bind at 1 2, draw. cbn [session vision_log text_log page].
    match goal with |- context [follow_up _ _ _ _ ?r0] =>
      destruct (follow_up_run failure_placeholder (follow_up_q w)
                  (get_followup_answer w) r0) as [after E'] end.
    rewrite E'. cbn [snd session vision_log text_log page analysis_result].
    exists before, after. rewrite <- !app_assoc. reflexivity. }
  destruct R as (before & after & R). rewrite R.
  cbn [session vision_log text_log page analysis_result with_result].
  split; [reflexivity|]. split; [reflexivity|].
  split; [|split].
  - rewrite !in_app_iff. right. left. left. reflexivity.
  - rewrite !in_app_iff. right. left. right. left. reflexivity.
  - intros Q. rewrite Q. reflexivity.
Qed.

(** ** Column 1 as a whole, and the refresh *)

Ltac col1_cases :=
  unfold col1, activate_camera_button, camera_capture, uploaded_file_handler,
    clear_image_button, when, bind, ret, st_rerun, get_session, draw,
    set_captured_image_pil, set_analysis_result, set_show_camera, modify_session,
    with_image, with_result, with_camera;
  repeat (cbn [fst snd session vision_log text_log page captured_image_pil
               analysis_result show_camera previous_language negb
               activate_camera camera_input uploaded_file clear_image];
          match goal with
          | |- context [if ?x then _ else _] => is_var x; destruct x
          | |- context [negb ?x] => is_var x; destruct x
          | |- context [match ?x with _ => _ end] => is_var x; destruct x
          | |- context [match Image_open ?c with _ => _ end] =>
              destruct (Image_open c) eqn:?
          end).

(** When column 1 asks for a rerun, it has switched the camera off. *)
Lemma col1_rerun_camera_off (w : Widgets Buffer) (r r' : Run Image) :
  col1 Image_open w r = (RerunException, r') ->
  show_camera (session r') = false.
Proof.
  destruct w as [lang up act cam clr q ans].
  destruct r as [[img res sc prev] vl tl pg].
  col1_cases; intros E; inversion E; reflexivity.
Qed.

(** With the camera off and no button pressed, column 1 returns. *)
Lemma col1_quiet (w : Widgets Buffer) (r : Run Image) :
  show_camera (session r) = false ->
  activate_camera w = false ->
  clear_image w = false ->
  exists r',
    col1 Image_open w r = (Ret tt, r') /\
    match uploaded_file w with
    | Some f =>
        match Image_open f with
        | inl bitmap => captured_image_pil (session r') = Some bitmap
        | inr _ => captured_image_pil (session r') = None
        end
    | None => captured_image_pil (session r') = captured_image_pil (session r)
    end.
Proof.
  destruct w as [lang up act cam clr q ans].
  destruct r as [[img res sc prev] vl tl pg].
  cbn [activate_camera camera_input uploaded_file clear_image session show_camera
       captured_image_pil].
  intros -> -> ->.
  col1_cases; eexists; (split; [reflexivity|]); reflexivity.
Qed.

(** With a decodable file in the uploader, column 1 either returns with the
    uploaded bitmap as the image, or asks for a rerun. *)
Lemma col1_upload (w : Widgets Buffer) (r : Run Image) (f : Buffer) (bitmap : Image) :
  uploaded_file w = Some f ->
  Image_open f = inl bitmap ->
  exists r',
    (col1 Image_open w r = (Ret tt, r') /\
     captured_image_pil (session r') = Some bitmap) \/
    col1 Image_open w r = (RerunException, r').
Proof.
  destruct w as [lang up act cam clr q ans].
  destruct r as [[img res sc prev] vl tl pg].
  cbn [activate_camera camera_input uploaded_file clear_image].
  intros -> D.
  col1_cases; try (exfalso; congruence);
    eexists;
    first [ left; split; [reflexivity | cbn [session captured_image_pil]; congruence]
          | right; reflexivity ].
Qed.

Lemma script_after_col1 (w : Widgets Buffer) (r r1 : Run Image) :
  col1 Image_open w r = (Ret tt, r1) ->
  exists r',
    script Image_open model_vision model_text w r = (Ret tt, r') /\
    captured_image_pil (session r') = captured_image_pil (session r1).
Proof.
  intros E. unfold script. erewrite bind_Ret by exact E.
  destruct (col2_returns w r1) as (r' & E' & I & _). eauto.
Qed.

Lemma script_rerun (w : Widgets Buffer) (r r1 : Run Image) :
  col1 Image_open w r = (RerunException, r1) ->
  script Image_open model_vision model_text w r = (RerunException, r1).
Proof.
  intros E. unfold script. now apply bind_Rerun.
Qed.

(** The execution that follows a rerun returns. *)
Lemma script_after_rerun (w : Widgets Buffer) (r r1 : Run Image) :
  col1 Image_open w r = (RerunException, r1) ->
  exists r2 r',
    col1 Image_open (reset_triggers w) r1 = (Ret tt, r2) /\
    script Image_open model_vision model_text (reset_triggers w) r1 = (Ret tt, r') /\
    captured_image_pil (session r') = captured_image_pil (session r2).
Proof.
  intros E. apply col1_rerun_camera_off in E.
  destruct (col1_quiet (reset_triggers w) r1 E eq_refl eq_refl) as (r2 & E2 & _).
  destruct (script_after_col1 _ _ _ E2) as (r' & E' & I).
  exists r2, r'. auto.
Qed.

(** A refresh is over after two executions at most. *)
Lemma refresh_total (w : Widgets Buffer) (r : Run Image) :
  exists r', refresh Image_open model_vision model_text 2 w r = Some r'.
Proof.
  cbn [refresh].
  destruct (col1 Image_open w r) as [[[]|] r1] eqn:E.
  - destruct (script_after_col1 _ _ _ E) as (r' & -> & _). eauto.
  - rewrite (script_rerun _ _ _ E).
    destruct (script_after_rerun _ _ _ E) as (r2 & r' & _ & -> & _). eauto.
Qed.

Lemma run_all_app (ms ms' : list (M Image unit)) (r : Run Image) :
  run_all (ms ++ ms') r = run_all ms' (run_all ms r).
Proof.
  revert r. induction ms as [|m ms IH]; intros r; cbn; [reflexivity|apply IH].
Qed.

(** C8: with a decodable file in the uploader, whatever the camera holds, an
    execution of the script that returns leaves the uploaded bitmap as the
    image, and so does the refresh once the rerun asked for by a capture or a
    clear has been executed; and after any sequence of submissions the image
    is the bitmap of the last one. *)
Theorem upload_takes_priority
  (w : Widgets Buffer) (r : Run Image) (f : Buffer) (bitmap : Image) :
  uploaded_file w = Some f ->
  Image_open f = inl bitmap ->
  (forall r', script Image_open model_vision model_text w r = (Ret tt, r') ->
              captured_image_pil (session r') = Some bitmap) /\
  (exists r', refresh Image_open model_vision model_text 2 w r = Some r' /\
              captured_image_pil (session r') = Some bitmap) /\
  (forall (earlier : list (Source * Buffer)) (source : Source),
     captured_image_pil
       (session (run_all (map (fun sb => submit_image Image_open (fst sb) (snd sb)) earlier
                          ++ [submit_image Image_open source f]) r))
     = Some bitmap).
Proof.
  intros U D. split; [|split].
  - intros r' S.
    destruct (col1_upload w r f bitmap U D) as (r1 & [[E I]|E]).
    + destruct (script_after_col1 _ _ _ E) as (r'' & S' & I').
      rewrite S' in S. injection S as <-. congruence.
    + rewrite (script_rerun _ _ _ E) in S. discriminate.
  - cbn [refresh].
    destruct (col1_upload w r f bitmap U D) as (r1 & [[E I]|E]).
    + destruct (script_after_col1 _ _ _ E) as (r' & -> & I').
      exists r'. split; [reflexivity|congruence].
    + rewrite (script_rerun _ _ _ E).
      pose proof (col1_rerun_camera_off _ _ _ E) as C.
      destruct (col1_quiet (reset_triggers w) r1 C eq_refl eq_refl) as (r2 & E2 & I2).
      cbn [reset_triggers uploaded_file] in I2. rewrite U, D in I2.
      destruct (script_after_col1 _ _ _ E2) as (r' & -> & I').
      exists r'. split; [reflexivity|congruence].
  - intros earlier source. rewrite run_all_app. cbn [run_all].
    match goal with
    | |- context [run_all (map ?g earlier) r] =>
        generalize (run_all (map g earlier) r); intros r0
    end.
    pose proof (submit_image_decoded source f bitmap r0 D) as S.
    unfold session_after in S. rewrite S. reflexivity.
Qed.

(** ** The camera button at the level of refreshes *)

Lemma col2_no_image (w : Widgets Buffer) (r : Run Image) :
  captured_image_pil (session r) = None ->
  exists r',
    col2 model_vision model_text w r = (Ret tt, r') /\ session r' = session r.
Proof.
  intros N. unfold col2, bind, get_session. rewrite N.
  eexists. split; reflexivity.
Qed.

(** With the camera off, no button pressed and nothing in the uploader,
    column 1 leaves the session as it is. *)
Lemma col1_idle (w : Widgets Buffer) (r : Run Image) :
  show_camera (session r) = false ->
  activate_camera w = false ->
  clear_image w = false ->
  uploaded_file w = None ->
  exists r', col1 Image_open w r = (Ret tt, r') /\ session r' = session r.
Proof.
  destruct w as [lang up act cam clr q ans].
  destruct r as [[img res sc prev] vl tl pg].
  cbn [activate_camera camera_input uploaded_file clear_image session show_camera].
  intros -> -> -> ->.
  col1_cases; eexists; split; reflexivity.
Qed.

(** The camera button is pressed, with nothing in the uploader and no photo
    taken. *)
Lemma col1_toggle (w : Widgets Buffer) (r : Run Image) :
  activate_camera w = true ->
  uploaded_file w = None ->
  camera_input w = None ->
  exists r',
    let cleared := mkSession None None false (previous_language (session r)) in
    if show_camera (session r) then
      col1 Image_open w r = (Ret tt, r') /\ session r' = cleared
    else
      (col1 Image_open w r = (Ret tt, r') /\
       session r' = with_camera true (session r)) \/
      (col1 Image_open w r = (RerunException, r') /\ session r' = cleared).
Proof.
  destruct w as [lang up act cam clr q ans].
  destruct r as [[img res sc prev] vl tl pg].
  cbn [activate_camera camera_input uploaded_file clear_image session show_camera
       previous_language].
  intros -> -> ->.
  col1_cases; eexists; cbn [with_camera session captured_image_pil analysis_result
                            show_camera previous_language];
    first [ split; reflexivity
          | left; split; reflexivity
          | right; split; reflexivity ].
Qed.

(** After a refresh caused by the camera button, with nothing submitted,
    either the camera is on or neither an image nor a result is held. *)
Lemma refresh_toggle (w : Widgets Buffer) (r : Run Image) :
  activate_camera w = true ->
  uploaded_file w = None ->
  camera_input w = None ->
  exists r',
    refresh Image_open model_vision model_text 2 w r = Some r' /\
    (if show_camera (session r) then
       session r' = mkSession None None false (previous_language (session r))
     else
       show_camera (session r') = true \/
       (captured_image_pil (session r') = None /\
        analysis_result (session r') = None)).
Proof.
  intros A U C. cbn [refresh].
  destruct (col1_toggle w r A U C) as (r1 & T). cbv zeta in T.
  destruct (show_camera (session r)).
  - destruct T as [E S1].
    unfold script. erewrite bind_Ret by exact E.
    destruct (col2_no_image w r1) as (r' & -> & S');
      [rewrite S1; reflexivity|].
    exists r'. split; [reflexivity|]. congruence.
  - destruct T as [[E S1]|[E S1]].
    + unfold script. erewrite bind_Ret by exact E.
      destruct (col2_returns w r1) as (r' & -> & _ & K).
      exists r'. split; [reflexivity|]. left. rewrite K, S1. reflexivity.
    + rewrite (script_rerun _ _ _ E).
      destruct (col1_idle (reset_triggers w) r1) as (r2 & E2 & S2);
        [rewrite S1; reflexivity|reflexivity|reflexivity|exact U|].
      unfold script. erewrite bind_Ret by exact E2.
      destruct (col2_no_image (reset_triggers w) r2) as (r' & -> & S');
        [rewrite S2, S1; reflexivity|].
      exists r'. split; [reflexivity|]. right.
      rewrite S', S2, S1. split; reflexivity.
Qed.

(** Two refreshes caused by the camera button, with nothing in the uploader
    and no photo taken, leave no image and no result. *)
Lemma camera_toggled_twice_refresh (w1 w2 : Widgets Buffer) (r : Run Image) :
  activate_camera w1 = true -> uploaded_file w1 = None -> camera_input w1 = None ->
  activate_camera w2 = true -> uploaded_file w2 = None -> camera_input w2 = None ->
  exists r1 r2,
    refresh Image_open model_vision model_text 2 w1 r = Some r1 /\
    refresh Image_open model_vision model_text 2 w2 r1 = Some r2 /\
    captured_image_pil (session r2) = None /\
    analysis_result (session r2) = None.
Proof.
  intros A1 U1 C1 A2 U2 C2.
  destruct (refresh_toggle w1 r A1 U1 C1) as (r1 & R1 & Q1).
  destruct (refresh_toggle w2 r1 A2 U2 C2) as (r2 & R2 & Q2).
  exists r1, r2. split; [exact R1|]. split; [exact R2|].
  destruct (show_camera (session r1)) eqn:S1.
  - rewrite Q2. split; reflexivity.
  - destruct (show_camera (session r)).
    + clear Q2. revert R2. cbn [refresh].
      destruct (col1_toggle w2 r1 A2 U2 C2) as (r1' & T). cbv zeta in T.
      rewrite S1, Q1 in T. cbn [with_camera captured_image_pil analysis_result
                                show_camera previous_language] in T.
      destruct T as [[E S']|[E S']].
      * unfold script. erewrite bind_Ret by exact E.
        destruct (col2_no_image w2 r1') as (r' & -> & S'');
          [rewrite S'; reflexivity|].
        intros [= <-]. rewrite S'', S'. split; reflexivity.
      * rewrite (script_rerun _ _ _ E).
        destruct (col1_idle (reset_triggers w2) r1') as (r2' & E2 & S2);
          [rewrite S'; reflexivity|reflexivity|reflexivity|exact U2|].
        unfold script. erewrite bind_Ret by exact E2.
        destruct (col2_no_image (reset_triggers w2) r2') as (r' & -> & S'');
          [rewrite S2, S'; reflexivity|].
        intros [= <-]. rewrite S'', S2, S'. split; reflexivity.
    + destruct Q1 as [Q1|[I1 N1]]; [congruence|].
      clear Q2. revert R2. cbn [refresh].
      destruct (col1_toggle w2 r1 A2 U2 C2) as (r1' & T). cbv zeta in T.
      rewrite S1 in T.
      destruct T as [[E S']|[E S']].
      * unfold script. erewrite bind_Ret by exact E.
        destruct (col2_no_image w2 r1') as (r' & -> & S'');
          [rewrite S'; exact I1|].
        intros [= <-]. rewrite S'', S'. split; [exact I1|exact N1].
      * rewrite (script_rerun _ _ _ E).
        destruct (col1_idle (reset_triggers w2) r1') as (r2' & E2 & S2);
          [rewrite S'; reflexivity|reflexivity|reflexivity|exact U2|].
        unfold script. erewrite bind_Ret by exact E2.
        destruct (col2_no_image (reset_triggers w2) r2') as (r' & -> & S'');
          [rewrite S2, S'; reflexivity|].
        intros [= <-]. rewrite S'', S2, S'. split; reflexivity.
Qed.

(** ** The two wrappers, seen from their callers *)

(** X1: the wrapper of the vision model calls it once, with the prompt of the
    language and the image; it leaves the session and the log of the text
    model alone, returns the text of the reply when there is one and [None]
    otherwise, and draws something, errors only, exactly when there is no
    text. *)
Theorem process_image_with_gemini_effect (img : Image) (lang : string) (r : Run Image) :
  let reply := model_vision (length (vision_log r)) (vision_prompt lang) img in
  exists drawn,
    process_image_with_gemini model_vision img lang r =
      (Ret (analysis_of reply),
       mkRun (session r) (vision_log r ++ [(vision_prompt lang, img)]) (text_log r)
             (page r ++ drawn)) /\
    (drawn = [] <-> exists t, reply = Text t) /\
    (forall e, In e drawn -> exists msg, e = St_error msg).
Proof.
  intros reply. unfold process_image_with_gemini. plumbing. fold reply.
  destruct reply as [t|e [reason|]|e];
    cbn [analysis_of session vision_log text_log page].
  - exists []. rewrite app_nil_r. split; [reflexivity|]. split.
    + split; [eauto|reflexivity].
    + intros e [].
  - eexists. rewrite <- !app_assoc. split; [reflexivity|]. split.
    + split; [discriminate|intros [t T]; discriminate].
    + cbn. intros x [<-|[<-|[]]]; eauto.
  - eexists. split; [reflexivity|]. split.
    + split; [discriminate|intros [t T]; discriminate].
    + cbn. intros x [<-|[]]; eauto.
  - eexists. split; [reflexivity|]. split.
    + split; [discriminate|intros [t T]; discriminate].
    + cbn. intros x [<-|[]]; eauto.
Qed.

(** X2: the wrapper of the text model calls it once, with the prompt built from
    the previous text and the question; it leaves the session and the log of
    the vision model alone, returns the text of the reply when there is one
    and [None] otherwise, and draws something, errors only, exactly when
    there is no text. *)
Theorem get_followup_response_effect (previous_text user_question : string) (r : Run Image) :
  let reply := model_text (length (text_log r))
                          (followup_prompt previous_text user_question) in
  exists drawn,
    get_followup_response model_text previous_text user_question r =
      (Ret (analysis_of reply),
       mkRun (session r) (vision_log r)
             (text_log r ++ [followup_prompt previous_text user_question])
             (page r ++ drawn)) /\
    (drawn = [] <-> exists t, reply = Text t) /\
    (forall e, In e drawn -> exists msg, e = St_error msg).
Proof.
  intros reply. unfold get_followup_response. plumbing. fold reply.
  destruct reply as [t|e [reason|]|e];
    cbn [analysis_of session vision_log text_log page].
  - exists []. rewrite app_nil_r. split; [reflexivity|]. split.
    + split; [eauto|reflexivity].
    + intros e [].
  - eexists. rewrite <- !app_assoc. split; [reflexivity|]. split.
    + split; [discriminate|intros [t T]; discriminate].
    + cbn. intros x [<-|[<-|[]]]; eauto.
  - eexists. split; [reflexivity|]. split.
    + split; [discriminate|intros [t T]; discriminate].
    + cbn. intros x [<-|[]]; eauto.
  - eexists. split; [reflexivity|]. split.
    + split; [discriminate|intros [t T]; discriminate].
    + cbn. intros x [<-|[]]; eauto.
Qed.

(** ** The analysis block, case by case *)

(** X3: when the model is called and gives a non-empty text, the text becomes
    the result and the language is recorded; image and camera flag stay. *)
Theorem ensure_analysis_success (img : Image) (lang t : string) (r : Run Image) :
  is_None (analysis_result (session r))
  || py_ne (previous_language (session r)) lang = true ->
  model_vision (length (vision_log r)) (vision_prompt lang) img = Text t ->
  str_truthy t = true ->
  exists r',
    ensure_analysis model_vision img lang r = (Ret (Some (Some t)), r') /\
    session r' = mkSession (captured_image_pil (session r)) (Some t)
                           (show_camera (session r)) (Some lang) /\
    vision_log r' = (vision_log r ++ [(vision_prompt lang, img)])%list.
Proof.
  intros H T N.
  destruct (ensure_analysis_miss img lang r H) as [drawn E].
  rewrite T in E. cbn [analysis_of truthy] in E. rewrite N in E.
  eexists. split; [exact E|]. split; reflexivity.
Qed.

(** X4: no earlier result survives a failed attempt: afterwards the result is the
    placeholder when the language differs from the recorded one, and absent
    when it does not; the recorded language stays. *)
Theorem ensure_analysis_failure_drops_result
  (img : Image) (lang : string) (r r' : Run Image) (analysis : option string) :
  ensure_analysis model_vision img lang r = (Ret (Some analysis), r') ->
  truthy analysis = false ->
  analysis_result (session r') =
    (if py_ne (previous_language (session r)) lang
     then Some failure_placeholder else None) /\
  previous_language (session r') = previous_language (session r).
Proof.
  intros E F.
  destruct (is_None (analysis_result (session r))
            || py_ne (previous_language (session r)) lang) eqn:H.
  - destruct (ensure_analysis_miss img lang r H) as [drawn E'].
    rewrite E' in E. injection E as Ha Hr. rewrite Ha, F in Hr. subst r'.
    cbn [session]. destruct (py_ne (previous_language (session r)) lang).
    + split; reflexivity.
    + rewrite orb_false_r in H. split; [|reflexivity].
      destruct (analysis_result (session r)); [discriminate|reflexivity].
  - rewrite (ensure_analysis_hit img lang r H) in E. discriminate.
Qed.

(** X5: what the analysis block never does: it returns, without touching the
    image, the camera flag or the text model; it calls the vision model at
    most once, for the image and the language it was given, and changes
    nothing at all when it calls nothing; the recorded language stays or
    becomes the language asked for. *)
Theorem ensure_analysis_frame (img : Image) (lang : string) (r : Run Image) :
  exists outcome r' calls,
    ensure_analysis model_vision img lang r = (Ret outcome, r') /\
    captured_image_pil (session r') = captured_image_pil (session r) /\
    show_camera (session r') = show_camera (session r) /\
    text_log r' = text_log r /\
    vision_log r' = (vision_log r ++ calls)%list /\
    (calls = [] /\ outcome = None /\ r' = r \/
     calls = [(vision_prompt lang, img)] /\ outcome <> None) /\
    (previous_language (session r') = previous_language (session r) \/
     previous_language (session r') = Some lang).
Proof.
  destruct (is_None (analysis_result (session r))
            || py_ne (previous_language (session r)) lang) eqn:H.
  - destruct (ensure_analysis_miss img lang r H) as [drawn E].
    do 3 eexists. split; [exact E|]. cbn [session text_log vision_log].
    destruct (truthy _).
    + repeat split; [right; split; [reflexivity|discriminate] | right; reflexivity].
    + destruct (py_ne _ _);
        (repeat split; [right; split; [reflexivity|discriminate] | left; reflexivity]).
  - exists None, r, []. rewrite app_nil_r.
    split; [now apply ensure_analysis_hit|]. repeat split; auto.
Qed.

(** ** One execution, column by column *)

(** Column 1 calls no model and leaves the recorded language; the result
    afterwards is absent, or it is the one held before, and then the image is
    the one held before or absent. *)
Lemma col1_effect (w : Widgets Buffer) (r r' : Run Image) (f : Flow unit) :
  col1 Image_open w r = (f, r') ->
  vision_log r' = vision_log r /\
  text_log r' = text_log r /\
  previous_language (session r') = previous_language (session r) /\
  (analysis_result (session r') = None \/
   analysis_result (session r') = analysis_result (session r) /\
   (captured_image_pil (session r') = captured_image_pil (session r) \/
    captured_image_pil (session r') = None)).
Proof.
  destruct w as [lang up act cam clr q ans].
  destruct r as [[img res sc prev] vl tl pg].
  col1_cases; intros E; inversion E; subst;
    cbn [session vision_log text_log captured_image_pil analysis_result
         previous_language];
    repeat split; auto.
Qed.

(** The display block: the session and the vision log stay; the text model
    is called when a non-empty result is stored, a question is typed and the
    button is pressed, and then once, about that result. *)
Lemma show_result_calls (w : Widgets Buffer) (r : Run Image) :
  exists r',
    show_result model_text w r = (Ret tt, r') /\
    session r' = session r /\
    vision_log r' = vision_log r /\
    text_log r' =
      match analysis_result (session r) with
      | Some result =>
          if str_truthy result && (str_truthy (follow_up_q w) && get_followup_answer w)
          then (text_log r ++ [followup_prompt result (follow_up_q w)])%list
          else text_log r
      | None => text_log r
      end.
Proof.
  unfold show_result, bind at 1, get_session.
  destruct (analysis_result (session r)) as [result|].
  - unfold when. destruct (str_truthy result); cbn [andb].
    + unfold bind at 1 2, draw. cbn [session vision_log text_log page].
      match goal with |- context [follow_up _ _ _ _ ?r0] =>
        destruct (follow_up_run result (follow_up_q w) (get_followup_answer w) r0)
          as [pg E] end.
      rewrite E. cbn [session vision_log text_log page].
      eexists. split; [reflexivity|]. repeat split.
    + exists r. repeat split.
  - exists r. repeat split.
Qed.

(** Column 2: without an image nothing is called and the session stays; with
    one, the analysis block runs and then the display block. *)
Lemma col2_run (w : Widgets Buffer) (r : Run Image) :
  exists r',
    col2 model_vision model_text w r = (Ret tt, r') /\
    match captured_image_pil (session r) with
    | None =>
        session r' = session r /\
        vision_log r' = vision_log r /\
        text_log r' = text_log r
    | Some img =>
        exists outcome r1,
          ensure_analysis model_vision img (language_select w) r = (Ret outcome, r1) /\
          session r' = session r1 /\
          vision_log r' = vision_log r1 /\
          text_log r1 = text_log r /\
          text_log r' =
            match analysis_result (session r1) with
            | Some result =>
                if str_truthy result
                   && (str_truthy (follow_up_q w) && get_followup_answer w)
                then (text_log r ++ [followup_prompt result (follow_up_q w)])%list
                else text_log r
            | None => text_log r
            end
    end.
Proof.
  unfold col2, bind at 1, get_session.
  destruct (captured_image_pil (session r)) as [img|] eqn:Himg.
  - destruct (ensure_analysis_returns img (language_select w) r)
      as (outcome & r1 & E & _ & _ & TL).
    erewrite bind_Ret by exact E.
    destruct (show_result_calls w r1) as (r' & E' & S & V & T).
    exists r'. split; [exact E'|]. exists outcome, r1.
    rewrite TL in T. repeat split; assumption.
  - eexists. split; [reflexivity|]. repeat split.
Qed.

(** A refresh is the two columns once, or column 1 up to its rerun and then
    the two columns with the buttons released. *)
Lemma refresh_cases (w : Widgets Buffer) (r : Run Image) :
  exists r',
    refresh Image_open model_vision model_text 2 w r = Some r' /\
    ((exists r1,
        col1 Image_open w r = (Ret tt, r1) /\
        col2 model_vision model_text w r1 = (Ret tt, r')) \/
     (exists r1 r2,
        col1 Image_open w r = (RerunException, r1) /\
        col1 Image_open (reset_triggers w) r1 = (Ret tt, r2) /\
        col2 model_vision model_text (reset_triggers w) r2 = (Ret tt, r'))).
Proof.
  cbn [refresh]. unfold script.
  destruct (col1 Image_open w r) as [[[]|] r1] eqn:E.
  - erewrite bind_Ret by exact E.
    destruct (col2_returns w r1) as (r' & E' & _).
    rewrite E'. exists r'. split; [reflexivity|]. left. eauto.
  - erewrite bind_Rerun by exact E.
    pose proof (col1_rerun_camera_off _ _ _ E) as C.
    destruct (col1_quiet (reset_triggers w) r1 C eq_refl eq_refl) as (r2 & E2 & _).
    erewrite bind_Ret by exact E2.
    destruct (col2_returns (reset_triggers w) r2) as (r' & E' & _).
    rewrite E'. exists r'. split; [reflexivity|]. right. eauto.
Qed.

(** The analysis block either changes nothing, or adds one call for the
    image and the language to the vision log. *)
Lemma ensure_analysis_calls (img : Image) (lang : string) (r r1 : Run Image)
  (outcome : option (option string)) :
  ensure_analysis model_vision img lang r = (Ret outcome, r1) ->
  captured_image_pil (session r1) = captured_image_pil (session r) /\
  (r1 = r \/ vision_log r1 = (vision_log r ++ [(vision_prompt lang, img)])%list).
Proof.
  intros E.
  destruct (is_None (analysis_result (session r))
            || py_ne (previous_language (session r)) lang) eqn:H.
  - destruct (ensure_analysis_miss img lang r H) as [drawn E'].
    rewrite E' in E. injection E as _ <-. cbn [session vision_log].
    split; [|right; reflexivity].
    destruct (truthy _); [reflexivity|]. destruct (py_ne _ _); reflexivity.
  - rewrite (ensure_analysis_hit img lang r H) in E. injection E as _ <-.
    split; [reflexivity|left; reflexivity].
Qed.

(** The calls of column 2: at most one to each model, none without an image;
    the vision call is for the image and the selected language, the text
    call is about the result stored afterwards. *)
Lemma col2_calls (w : Widgets Buffer) (r r' : Run Image) :
  col2 model_vision model_text w r = (Ret tt, r') ->
  (vision_log r' = vision_log r \/
   exists img,
     captured_image_pil (session r') = Some img /\
     vision_log r' = (vision_log r ++ [(vision_prompt (language_select w), img)])%list) /\
  (text_log r' = text_log r \/
   exists img result,
     captured_image_pil (session r') = Some img /\
     analysis_result (session r') = Some result /\
     str_truthy result = true /\
     str_truthy (follow_up_q w) = true /\
     get_followup_answer w = true /\
     text_log r' = (text_log r ++ [followup_prompt result (follow_up_q w)])%list).
Proof.
  intros E. destruct (col2_run w r) as (r'' & E' & C).
  rewrite E' in E. injection E as ->.
  destruct (captured_image_pil (session r)) as [img|] eqn:Himg.
  - destruct C as (outcome & r1 & EA & S & V & TL & T).
    destruct (ensure_analysis_calls _ _ _ _ _ EA) as [I K].
    rewrite Himg in I. split.
    + destruct K as [->|K]; [left; exact V|].
      right. exists img. rewrite S, V. split; assumption.
    + rewrite <- S in T.
      destruct (analysis_result (session r')) as [result|] eqn:R; [|left; exact T].
      destruct (str_truthy result) eqn:N; [|left; exact T].
      destruct (str_truthy (follow_up_q w)) eqn:Q; [|left; exact T].
      destruct (get_followup_answer w) eqn:A; [|left; exact T].
      right. exists img, result. rewrite S. repeat split; assumption.
  - destruct C as (S & V & T). split; left; assumption.
Qed.

(** X6: each refresh calls each model at most once, and none when it ends
    without an image.  The vision call is made for the image the refresh
    ends with and the selected language; the text call is made when a
    question is typed and the button pressed, about the result the refresh
    ends with. *)
Theorem refresh_calls (w : Widgets Buffer) (r : Run Image) :
  exists r',
    refresh Image_open model_vision model_text 2 w r = Some r' /\
    (vision_log r' = vision_log r \/
     exists img,
       captured_image_pil (session r') = Some img /\
       vision_log r' =
       (vision_log r ++ [(vision_prompt (language_select w), img)])%list) /\
    (text_log r' = text_log r \/
     exists img result,
       captured_image_pil (session r') = Some img /\
       analysis_result (session r') = Some result /\
       str_truthy result = true /\
       str_truthy (follow_up_q w) = true /\
       get_followup_answer w = true /\
       text_log r' = (text_log r ++ [followup_prompt result (follow_up_q w)])%list).
Proof.
  destruct (refresh_cases w r) as (r' & R & [(r1 & E1 & E2)|(r1 & r2 & E0 & E1 & E2)]);
    exists r'; (split; [exact R|]).
  - destruct (col1_effect _ _ _ _ E1) as (V & T & _).
    destruct (col2_calls _ _ _ E2) as [CV CT].
    rewrite V in CV. rewrite T in CT. split; assumption.
  - destruct (col1_effect _ _ _ _ E0) as (V0 & T0 & _).
    destruct (col1_effect _ _ _ _ E1) as (V1 & T1 & _).
    destruct (col2_calls _ _ _ E2) as [CV CT].
    rewrite V1, V0 in CV. rewrite T1, T0 in CT.
    cbn [reset_triggers language_select follow_up_q get_followup_answer] in CV, CT.
    split; [exact CV|].
    destruct CT as [CT|(img & result & _ & _ & _ & _ & A & _)];
      [left; exact CT|discriminate].
Qed.

(** ** What every sequence of refreshes keeps *)

(** A property of the state kept by both columns is kept by a refresh. *)
Lemma refresh_keeps (P : Run Image -> Prop) :
  (forall (w : Widgets Buffer) r f r1,
     P r -> col1 Image_open w r = (f, r1) -> P r1) ->
  (forall (w : Widgets Buffer) r r',
     P r -> col2 model_vision model_text w r = (Ret tt, r') -> P r') ->
  forall w r, P r ->
    exists r', refresh Image_open model_vision model_text 2 w r = Some r' /\ P r'.
Proof.
  intros K1 K2 w r H.
  destruct (refresh_cases w r) as (r' & R & [(r1 & E1 & E2)|(r1 & r2 & E0 & E1 & E2)]);
    exists r'; (split; [exact R|]).
  - eapply K2; [|exact E2]. eapply K1; [exact H|exact E1].
  - eapply K2; [|exact E2]. eapply K1; [|exact E1]. eapply K1; [exact H|exact E0].
Qed.

Lemma refresh_all_keeps (P : Run Image -> Prop) :
  (forall (w : Widgets Buffer) r f r1,
     P r -> col1 Image_open w r = (f, r1) -> P r1) ->
  (forall (w : Widgets Buffer) r r',
     P r -> col2 model_vision model_text w r = (Ret tt, r') -> P r') ->
  forall ws r, P r ->
    exists r', refresh_all Image_open model_vision model_text ws r = Some r' /\ P r'.
Proof.
  intros K1 K2 ws. induction ws as [|w ws IH]; intros r H; cbn [refresh_all].
  - eauto.
  - destruct (refresh_keeps P K1 K2 w r H) as (r1 & -> & H1). apply IH, H1.
Qed.

Lemma ensure_analysis_session (img : Image) (lang : string) (r r1 : Run Image)
  (outcome : option (option string)) :
  ensure_analysis model_vision img lang r = (Ret outcome, r1) ->
  r1 = r \/
  is_None (analysis_result (session r))
  || py_ne (previous_language (session r)) lang = true /\
  vision_log r1 = (vision_log r ++ [(vision_prompt lang, img)])%list /\
  let analysis :=
    analysis_of (model_vision (length (vision_log r)) (vision_prompt lang) img) in
  session r1 =
    if truthy analysis then
      with_language (Some lang) (with_result analysis (session r))
    else if py_ne (previous_language (session r)) lang then
      with_result (Some failure_placeholder) (session r)
    else session r.
Proof.
  intros E.
  destruct (is_None (analysis_result (session r))
            || py_ne (previous_language (session r)) lang) eqn:H.
  - destruct (ensure_analysis_miss img lang r H) as [drawn E'].
    rewrite E' in E. injection E as _ <-. right. repeat split.
  - rewrite (ensure_analysis_hit img lang r H) in E. injection E as _ <-.
    left. reflexivity.
Qed.

Lemma col1_keeps_displayable (w : Widgets Buffer) (r r1 : Run Image) (f : Flow unit) :
  result_displayable (session r) = true ->
  col1 Image_open w r = (f, r1) ->
  result_displayable (session r1) = true.
Proof.
  intros H E. destruct (col1_effect _ _ _ _ E) as (_ & _ & _ & [N|[S _]]);
    unfold result_displayable in *.
  - rewrite N. reflexivity.
  - rewrite S. exact H.
Qed.

Lemma col2_keeps_displayable (w : Widgets Buffer) (r r' : Run Image) :
  result_displayable (session r) = true ->
  col2 model_vision model_text w r = (Ret tt, r') ->
  result_displayable (session r') = true.
Proof.
  intros H E. destruct (col2_run w r) as (r'' & E' & C).
  rewrite E' in E. injection E as ->.
  destruct (captured_image_pil (session r)) as [img|].
  - destruct C as (outcome & r1 & EA & S & _).
    rewrite S. destruct (ensure_analysis_session _ _ _ _ _ EA) as [->|(_ & _ & K)];
      [exact H|].
    cbv zeta in K. rewrite K.
    destruct (analysis_of _) as [t|] eqn:A; cbn [truthy].
    + destruct (str_truthy t) eqn:N.
      * unfold result_displayable. cbn. exact N.
      * destruct (py_ne _ _); [reflexivity|exact H].
    + destruct (py_ne _ _); [reflexivity|exact H].
  - destruct C as (S & _). rewrite S. exact H.
Qed.

(** X7: the empty string is never stored as the result: whatever the widgets
    and the models do, refresh after refresh, the result is absent or a
    non-empty string. *)
Theorem result_displayable_kept (ws : list (Widgets Buffer)) (r : Run Image) :
  result_displayable (session r) = true ->
  exists r',
    refresh_all Image_open model_vision model_text ws r = Some r' /\
    result_displayable (session r') = true.
Proof.
  apply (refresh_all_keeps (fun r => result_displayable (session r) = true)).
  - intros w r0 f r1 H E. exact (col1_keeps_displayable w r0 r1 f H E).
  - intros w r0 r' H E. exact (col2_keeps_displayable w r0 r' H E).
Qed.

Lemma result_matches_image_ext (r r' : Run Image) :
  session r' = session r ->
  vision_log r' = vision_log r ->
  result_matches_image model_vision r ->
  result_matches_image model_vision r'.
Proof.
  intros S V H img t. rewrite S, V. apply H.
Qed.

Lemma col1_keeps_match (w : Widgets Buffer) (r r1 : Run Image) (f : Flow unit) :
  result_matches_image model_vision r ->
  col1 Image_open w r = (f, r1) ->
  result_matches_image model_vision r1.
Proof.
  intros H E img t I R.
  destruct (col1_effect _ _ _ _ E) as (V & _ & P & [N|[S [K|K]]]);
    [congruence| |congruence].
  rewrite V, P. apply H; congruence.
Qed.

Lemma col2_keeps_match (w : Widgets Buffer) (r r' : Run Image) :
  result_matches_image model_vision r ->
  col2 model_vision model_text w r = (Ret tt, r') ->
  result_matches_image model_vision r'.
Proof.
  intros H E. destruct (col2_run w r) as (r'' & E' & C).
  rewrite E' in E. injection E as ->.
  destruct (captured_image_pil (session r)) as [img|] eqn:Himg.
  - destruct C as (outcome & r1 & EA & S & V & _).
    apply (result_matches_image_ext r1 r' S V).
    destruct (ensure_analysis_session _ _ _ _ _ EA) as [->|(M & L & K)];
      [exact H|].
    cbv zeta in K. intros img' t I R. rewrite K in I, R |- *. rewrite L.
    destruct (analysis_of _) as [a|] eqn:A; cbn [truthy] in *.
    + destruct (str_truthy a) eqn:N.
      * cbn in I, R. rewrite Himg in I. injection I as <-. injection R as <-.
        exists (vision_log r), (vision_prompt (language_select w)).
        split; [reflexivity|]. right. exists (language_select w).
        repeat split.
        destruct (model_vision _ _ _); cbn in A; congruence.
      * destruct (py_ne _ _) eqn:P.
        -- cbn in I, R. rewrite Himg in I. injection I as <-. injection R as <-.
           exists (vision_log r), (vision_prompt (language_select w)).
           split; [reflexivity|]. left. reflexivity.
        -- rewrite orb_false_r in M.
           destruct (analysis_result (session r)); discriminate.
    + destruct (py_ne _ _) eqn:P.
      * cbn in I, R. rewrite Himg in I. injection I as <-. injection R as <-.
        exists (vision_log r), (vision_prompt (language_select w)).
        split; [reflexivity|]. left. reflexivity.
      * rewrite orb_false_r in M.
        destruct (analysis_result (session r)); discriminate.
  - destruct C as (S & V & _). exact (result_matches_image_ext r r' S V H).
Qed.

(** X8: the stored result always belongs to the stored image: refresh after
    refresh, when an image and a result are both stored, the last call to the
    vision model was made for that image, and the result is the failure
    placeholder or the text the model gave to that call, asked for the
    recorded language. *)
Theorem result_matches_image_kept (ws : list (Widgets Buffer)) (r : Run Image) :
  result_matches_image model_vision r ->
  exists r',
    refresh_all Image_open model_vision model_text ws r = Some r' /\
    result_matches_image model_vision r'.
Proof.
  apply (refresh_all_keeps (result_matches_image model_vision)).
  - intros w r0 f r1 H E. exact (col1_keeps_match w r0 r1 f H E).
  - intros w r0 r' H E. exact (col2_keeps_match w r0 r' H E).
Qed.

(** ** Refreshes, by what the user did *)


Lemma col2_hit (w : Widgets Buffer) (r : Run Image) (img : Image) :
  captured_image_pil (session r) = Some img ->
  is_None (analysis_result (session r))
  || py_ne (previous_language (session r)) (language_select w) = false ->
  exists r',
    col2 model_vision model_text w r = (Ret tt, r') /\
    session r' = session r /\
    vision_log r' = vision_log r /\
    text_log r' =
      match analysis_result (session r) with
      | Some result =>
          if str_truthy result && (str_truthy (follow_up_q w) && get_followup_answer w)
          then (text_log r ++ [followup_prompt result (follow_up_q w)])%list
          else text_log r
      | None => text_log r
      end.
Proof.
  intros I H. destruct (col2_run w r) as (r' & E & C). rewrite I in C.
  destruct C as (outcome & r1 & EA & S & V & _ & T).
  rewrite (ensure_analysis_hit img (language_select w) r H) in EA.
  injection EA as _ <-.
  exists r'. repeat split; assumption.
Qed.





(** X11: nothing pressed, nothing submitted, camera off, and a result stored for
    the selected language: the refresh leaves the session as it is and calls
    the vision model not at all; the text model is called once, about the
    stored result, when a question is typed and the button pressed. *)
Theorem cached_refresh
  (w : Widgets Buffer) (r : Run Image) (img : Image) (t : string) :
  activate_camera w = false ->
  clear_image w = false ->
  uploaded_file w = None ->
  show_camera (session r) = false ->
  captured_image_pil (session r) = Some img ->
  analysis_result (session r) = Some t ->
  previous_language (session r) = Some (language_select w) ->
  exists r',
    refresh Image_open model_vision model_text 2 w r = Some r' /\
    session r' = session r /\
    vision_log r' = vision_log r /\
    text_log r' =
      if str_truthy t && (str_truthy (follow_up_q w) && get_followup_answer w)
      then (text_log r ++ [followup_prompt t (follow_up_q w)])%list
      else text_log r.
Proof.
  intros A K U C I R P.
  destruct (col1_idle w r C A K U) as (r1 & E1 & S1).
  destruct (col1_effect _ _ _ _ E1) as (V1 & T1 & _).
  destruct (col2_hit w r1 img) as (r' & E2 & S & V & T).
  - rewrite S1. exact I.
  - rewrite S1, R, P. cbn [is_None orb]. apply py_ne_same.
  - exists r'. split.
    + cbn [refresh]. unfold script. erewrite bind_Ret by exact E1.
      rewrite E2. reflexivity.
    + rewrite S1, R, T1 in T. rewrite S, S1, V, V1. repeat split. exact T.
Qed.

Lemma col1_clear (w : Widgets Buffer) (r : Run Image) (img : Image) :
  clear_image w = true ->
  activate_camera w = false ->
  camera_input w = None ->
  uploaded_file w = None ->
  captured_image_pil (session r) = Some img ->
  exists r1,
    col1 Image_open w r = (RerunException, r1) /\
    session r1 = mkSession None None false (previous_language (session r)).
Proof.
  destruct w as [lang up act cam clr q ans].
  destruct r as [[im res sc prev] vl tl pg].
  cbn [activate_camera camera_input uploaded_file clear_image session
       captured_image_pil previous_language].
  intros -> -> -> -> ->.
  col1_cases; eexists; split; reflexivity.
Qed.

(** X12: the clear button, pressed while an image is held, with nothing in the
    uploader and no photo taken: the refresh reruns once, calls no model, and
    ends without image and result, the camera off and the recorded language
    as before. *)
Theorem clear_refresh (w : Widgets Buffer) (r : Run Image) (img : Image) :
  clear_image w = true ->
  activate_camera w = false ->
  camera_input w = None ->
  uploaded_file w = None ->
  captured_image_pil (session r) = Some img ->
  exists r1 r',
    script Image_open model_vision model_text w r = (RerunException, r1) /\
    refresh Image_open model_vision model_text 2 w r = Some r' /\
    session r' = mkSession None None false (previous_language (session r)) /\
    vision_log r' = vision_log r /\
    text_log r' = text_log r.
Proof.
  intros K A C U I.
  destruct (col1_clear w r img K A C U I) as (r1 & E0 & S1).
  destruct (col1_effect _ _ _ _ E0) as (V0 & T0 & _).
  destruct (col1_idle (reset_triggers w) r1) as (r2 & E1 & S2);
    [rewrite S1; reflexivity|reflexivity|reflexivity|exact U|].
  destruct (col1_effect _ _ _ _ E1) as (V1 & T1 & _).
  destruct (col2_run (reset_triggers w) r2) as (r' & E2 & X).
  rewrite S2, S1 in X. cbn [captured_image_pil] in X. destruct X as (S & V & T).
  exists r1, r'. split; [exact (script_rerun _ _ _ E0)|]. split.
  - cbn [refresh]. rewrite (script_rerun _ _ _ E0).
    unfold script. erewrite bind_Ret by exact E1. rewrite E2. reflexivity.
  - rewrite S, V, V1, V0, T, T1, T0. repeat split.
Qed.

(** X13: a refresh is over after two executions at most: the execution that
    follows a rerun never asks for another one, so more fuel than two changes
    nothing. *)
Theorem refresh_two_executions (w : Widgets Buffer) (r : Run Image) :
  exists r',
    forall extra : nat,
      refresh Image_open model_vision model_text (2 + extra) w r = Some r'.
Proof.
  destruct (col1 Image_open w r) as [[[]|] r1] eqn:E.
  - destruct (script_after_col1 _ _ _ E) as (r' & S & _).
    exists r'. intros extra. cbn [Nat.add refresh]. rewrite S. reflexivity.
  - destruct (script_after_rerun _ _ _ E) as (r2 & r' & _ & S & _).
    exists r'. intros extra. cbn [Nat.add refresh].
    rewrite (script_rerun _ _ _ E), S. reflexivity.
Qed.

Lemma col2_fresh (w : Widgets Buffer) (r r' : Run Image) :
  col2 model_vision model_text w r = (Ret tt, r') ->
  match captured_image_pil (session r'), analysis_result (session r') with
  | Some _, Some t =>
      t = failure_placeholder \/
      previous_language (session r') = Some (language_select w)
  | _, _ => True
  end.
Proof.
  intros E. destruct (col2_run w r) as (r'' & E' & C).
  rewrite E' in E. injection E as ->.
  destruct (captured_image_pil (session r)) as [img|] eqn:Himg.
  - destruct C as (outcome & r1 & EA & S & _). rewrite S.
    destruct (is_None (analysis_result (session r))
              || py_ne (previous_language (session r)) (language_select w)) eqn:H.
    + destruct (ensure_analysis_miss img (language_select w) r H) as [drawn E1].
      rewrite E1 in EA. injection EA as _ <-. cbn [session].
      destruct (truthy _).
      * cbn. rewrite Himg. destruct (analysis_of _); [right; reflexivity|exact I].
      * destruct (py_ne _ _) eqn:P.
        -- cbn. rewrite Himg. left. reflexivity.
        -- rewrite orb_false_r in H.
           destruct (analysis_result (session r)); [discriminate|].
           destruct (captured_image_pil (session r)); exact I.
    + rewrite (ensure_analysis_hit img (language_select w) r H) in EA.
      injection EA as _ <-. apply orb_false_iff in H. destruct H as [_ P].
      apply py_ne_false in P. rewrite Himg.
      destruct (analysis_result (session r)); [right; exact P|exact I].
  - destruct C as (S & _). rewrite S, Himg. exact I.
Qed.

(** X14: no result in another language is left on display: at the end of every
    refresh, a result stored beside an image is the failure placeholder, or
    the recorded language is the selected one. *)
Theorem fresh_after_refresh (w : Widgets Buffer) (r : Run Image) :
  exists r',
    refresh Image_open model_vision model_text 2 w r = Some r' /\
    match captured_image_pil (session r'), analysis_result (session r') with
    | Some _, Some t =>
        t = failure_placeholder \/
        previous_language (session r') = Some (language_select w)
    | _, _ => True
    end.
Proof.
  destruct (refresh_cases w r) as (r' & R & [(r1 & E1 & E2)|(r1 & r2 & E0 & E1 & E2)]);
    exists r'; (split; [exact R|]).
  - exact (col2_fresh w r1 r' E2).
  - exact (col2_fresh (reset_triggers w) r2 r' E2).
Qed.

(** X15: the follow-up handler does nothing at all without a question or without
    the button; otherwise it calls the text model once about the result it
    was given, and the last thing it draws is the answer, as a success, when
    the model gave a non-empty text, and the warning in every other case. *)
Theorem follow_up_answer (result user_q : string) (clicked : bool) (r : Run Image) :
  exists r',
    follow_up model_text result user_q clicked r = (Ret tt, r') /\
    if str_truthy user_q && clicked then
      session r' = session r /\
      vision_log r' = vision_log r /\
      text_log r' = (text_log r ++ [followup_prompt result user_q])%list /\
      exists before,
        page r' =
        (before ++
         [match model_text (length (text_log r)) (followup_prompt result user_q) with
          | Text (String c t) => St_success (String c t)
          | _ => St_warning "Could not get a follow-up response."
          end])%list
    else r' = r.
Proof.
  unfold follow_up, when.
  destruct (str_truthy user_q && clicked).
  - destruct (get_followup_response_run result user_q
                (mkRun (session r) (vision_log r) (text_log r)
                       (page r ++ [St_spinner "Generating follow-up response..."])))
      as [pg E].
    cbn [session vision_log text_log page] in E.
    unfold bind, draw. rewrite E.
    destruct (model_text _ _) as [[|c t]|e reason|e];
      cbn [analysis_of str_truthy session vision_log text_log page];
      eexists; (split; [reflexivity|]);
      cbn [session vision_log text_log page]; repeat split; eexists; reflexivity.
  - exists r. split; reflexivity.
Qed.

End Properties.

(** * The theorems on the sample setting *)

Module OnSample.

Import Sample.

(** ** The sample sessions are sessions of the script *)

(** Pressing the camera button on the initial session opens the camera. *)
Example camera_open_reached :
  session_of (refresh decode vision_up text_up 2 (press_camera "French") initial)
  = Some (session camera_open).
Proof. reflexivity. Qed.

(** The photo is decoded, the script reruns, and column 1 of the rerun hands
    column 2 a session with an image and nothing else. *)
Example image_ready_reached :
  exists r1 r2,
    script decode vision_down text_up (take_photo "English" "note.png") camera_open
      = (RerunException, r1) /\
    col1 decode (reset_triggers (take_photo "English" "note.png")) r1 = (Ret tt, r2) /\
    session r2 = session image_ready.
Proof. do 2 eexists. repeat split. Qed.

(** With the model up, the same refresh ends with the analysis for French. *)
Example analysed_french_reached :
  session_of (refresh decode vision_up text_up 2
                (take_photo "French" "note.png") camera_open)
  = Some (session analysed_french).
Proof. reflexivity. Qed.

(** The camera is opened again and another photo is taken: column 2 of the
    rerun receives the new image, no result, and French still recorded. *)
Example replaced_french_reached :
  exists r1 r2 r3,
    refresh decode vision_up text_up 2 (press_camera "French") analysed_french
      = Some r1 /\
    script decode vision_down text_up (take_photo "French" "memo.png") r1
      = (RerunException, r2) /\
    col1 decode (reset_triggers (take_photo "French" "memo.png")) r2 = (Ret tt, r3) /\
    session r3 = session replaced_french.
Proof. do 3 eexists. repeat split. Qed.

(** Selecting German and asking a question leaves column 1 idle. *)
Example asking_in_german_reached :
  exists r1,
    col1 decode asking_in_german analysed_french = (Ret tt, r1) /\
    session r1 = session analysed_french.
Proof. eexists. split; reflexivity. Qed.

(** ** C1 *)

(** C1, on the sample: a first attempt that succeeds is followed by a cache
    hit. *)
Lemma ensure_analysis_twice_same_language_sample :
  let first := ensure_analysis vision_up "note.png" "English" image_ready in
  captured_image_pil (session (snd first)) = Some "note.png" /\
  ensure_analysis vision_up "note.png" "English" (snd first) = (Ret None, snd first) /\
  length (vision_log (snd first)) <= S (length (vision_log image_ready)).
Proof.
  apply (ensure_analysis_twice_same_language string vision_up
           "note.png" "English" image_ready _
           (Some (Some ("Transcript. " ++ vision_prompt "English"))));
    reflexivity.
Defined.

(** C1 as stated fails: a first attempt that fails is followed by a second
    call to the model, so two consecutive [ensure_analysis] for English call
    it twice. *)
Lemma failed_attempt_is_retried_sample :
  let first := ensure_analysis vision_down "note.png" "English" image_ready in
  let second := ensure_analysis vision_down "note.png" "English" (snd first) in
  captured_image_pil (session image_ready) = Some "note.png" /\
  vision_log (snd second) =
    [(vision_prompt "English", "note.png"); (vision_prompt "English", "note.png")] /\
  vision_calls (ensure_analysis vision_down "note.png" "English") (snd first) = 1 /\
  ~ length (vision_log (snd second)) - length (vision_log image_ready) <= 1.
Proof.
  cbv zeta. repeat split; try reflexivity.
  vm_compute. intros H. inversion H as [|? H']. inversion H'.
Qed.

(** ** C2 *)

(** C2, on the sample: the image was replaced after an analysis for French;
    a failing attempt for French leaves the result absent. *)
Lemma ensure_analysis_first_failure_sample :
  exists analysis r',
    ensure_analysis vision_down "memo.png" "French" replaced_french
      = (Ret (Some analysis), r') /\
    truthy analysis = false /\
    (previous_language (session replaced_french) = Some "French" ->
     analysis_result (session r') = None) /\
    (previous_language (session replaced_french) <> Some "French" ->
     analysis_result (session r') = Some failure_placeholder).
Proof.
  apply (ensure_analysis_first_failure string vision_down
           "memo.png" "French" replaced_french); reflexivity.
Defined.

(** C2 as stated fails: the first attempt of a session fails, no result was
    held, and the placeholder is stored as the result. *)
Lemma first_attempt_failure_stores_placeholder_sample :
  let r' := snd (ensure_analysis vision_down "note.png" "English" image_ready) in
  captured_image_pil (session image_ready) = Some "note.png" /\
  analysis_result (session image_ready) = None /\
  analysis_of (vision_down 0 (vision_prompt "English") "note.png") = None /\
  analysis_result (session r') = Some failure_placeholder /\
  analysis_result (session r') <> None.
Proof.
  cbv zeta. repeat split; try reflexivity. vm_compute. discriminate.
Qed.

(** ** C3 *)

(** C3 as stated fails: after the clear button the language of the last
    analysis still reads as French. *)
Lemma clear_image_keeps_language_sample :
  let r' := snd (clear_image_button analysed_french) in
  previous_language (session r') = Some "French" /\
  previous_language (session r') <> None.
Proof.
  cbv zeta. split; [reflexivity|]. vm_compute. discriminate.
Qed.

(** ** C4 *)

(** C4, on the sample: a new image replaces an analysed one. *)
Lemma submit_image_effect_sample :
  decode "memo.png" = inl "memo.png" /\
  session_after (camera_capture decode "memo.png") analysed_french =
    mkSession (Some "memo.png") None false (Some "French") /\
  session_after (uploaded_file_handler decode "memo.png") analysed_french =
    mkSession (Some "memo.png") None false (Some "French").
Proof.
  split; [reflexivity|].
  apply (submit_image_effect string string decode "memo.png" "memo.png"
           analysed_french); reflexivity.
Defined.

(** C4 as stated fails: after a new image was submitted, from either source,
    the language of the last analysis still reads as French. *)
Lemma submit_image_keeps_language_sample :
  decode "memo.png" = inl "memo.png" /\
  previous_language
    (session_after (submit_image decode upload "memo.png") analysed_french) <> None /\
  previous_language
    (session_after (submit_image decode camera "memo.png") analysed_french) <> None.
Proof.
  repeat split; vm_compute; discriminate.
Qed.

(** ** C5 *)

(** C5, on the sample: the empty buffer is submitted. *)
Lemma decode_failure_effect_sample :
  decode EmptyString = inr "cannot identify image file" /\
  camera_capture decode EmptyString analysed_french =
    (Ret tt,
     mkRun (with_image None (session analysed_french))
           (vision_log analysed_french) (text_log analysed_french)
           (page analysed_french
            ++ [St_error ("Could not process camera image: "
                          ++ "cannot identify image file")])) /\
  uploaded_file_handler decode EmptyString analysed_french =
    (Ret tt,
     mkRun (with_image None (session analysed_french))
           (vision_log analysed_french) (text_log analysed_french)
           (page analysed_french
            ++ [St_error ("Could not process uploaded image: "
                          ++ "cannot identify image file")])).
Proof.
  split; [reflexivity|].
  apply (decode_failure_effect string string decode EmptyString
           "cannot identify image file" analysed_french); reflexivity.
Defined.

(** C5 as stated fails: a file that does not decode is uploaded while an
    image is held, and the held image is gone afterwards. *)
Lemma decode_failure_drops_image_sample :
  decode EmptyString = inr "cannot identify image file" /\
  captured_image_pil (session analysed_french) = Some "note.png" /\
  captured_image_pil
    (session_after (uploaded_file_handler decode EmptyString) analysed_french) = None /\
  session_after (uploaded_file_handler decode EmptyString) analysed_french
    <> session analysed_french.
Proof.
  repeat split; vm_compute; discriminate.
Qed.

(** ** C6 *)

(** C6, on the sample: French, then German. *)
Lemma language_change_recomputes_once_sample :
  let r1 := snd (ensure_analysis vision_up "note.png" "French" image_ready) in
  vision_log (snd (ensure_analysis vision_up "note.png" "German" r1)) =
    (vision_log r1 ++ [(vision_prompt "German", "note.png")])%list /\
  vision_calls (ensure_analysis vision_up "note.png" "German") r1 = 1.
Proof.
  apply (language_change_recomputes_once string vision_up
           "note.png" "French" "German" ("Transcript. " ++ vision_prompt "French")
           image_ready);
    try reflexivity.
  vm_compute. discriminate.
Defined.

(** ** C8 *)

(** The execution in which the photo is decoded stops at the rerun, with the
    photo as the image; the uploaded file takes its place in the execution
    that follows. *)
Example capture_then_rerun_sample :
  exists r1,
    script decode vision_up text_up upload_and_photo camera_open
      = (RerunException, r1) /\
    captured_image_pil (session r1) = Some "photo.jpg".
Proof. eexists. split; reflexivity. Qed.

(** C8, on the sample: the refresh ends with the uploaded file as the
    image. *)
Lemma upload_takes_priority_sample :
  uploaded_file upload_and_photo = Some "upload.png" /\
  decode "upload.png" = inl "upload.png" /\
  exists r',
    refresh decode vision_up text_up 2 upload_and_photo camera_open = Some r' /\
    captured_image_pil (session r') = Some "upload.png".
Proof.
  split; [reflexivity|]. split; [reflexivity|].
  apply (upload_takes_priority string string decode vision_up text_up
           upload_and_photo camera_open "upload.png" "upload.png");
    reflexivity.
Defined.

(** ** C10 *)

(** C10, on the sample: German is asked for after French, the model is
    down, and a question is asked. *)
Lemma failed_language_change_shows_placeholder_sample :
  let r' := snd (col2 vision_down text_up asking_in_german analysed_french) in
  analysis_result (session r') = Some failure_placeholder /\
  In (St_text_area failure_placeholder) (page r') /\
  In (St_download_button failure_placeholder "ScriptSense_Analysis_German.txt")
     (page r') /\
  text_log r' = [followup_prompt failure_placeholder "What is the deadline?"].
Proof.
  destruct (failed_language_change_shows_placeholder string string
              vision_down text_up "note.png" asking_in_german analysed_french)
    as (_ & R & T & D & Q).
  - reflexivity.
  - vm_compute. discriminate.
  - reflexivity.
  - cbv zeta. split; [exact R|]. split; [exact T|]. split; [exact D|].
    rewrite Q; reflexivity.
Defined.

End OnSample.

(** * The start of the script *)

Section StartupProperties.

Variables Image Model : Type.
Variable configure : string -> option string.
Variable GenerativeModel : nat -> string -> Model + string.

(** X16: the script goes past the key check only with a non-empty key, taken from
    the secrets when the lookup returns, from the environment when the lookup
    raised one of the two caught exceptions, and from the text input when the
    environment has none either.  When the lookup returns, the environment
    and the text input play no part, even if the value returned is empty. *)
Theorem load_api_key_sources
  (secrets : SecretsLookup) (environ : option string) (text_input key : string) :
  (snd (load_api_key (Image := Image) secrets environ text_input) = Proceed key <->
   str_truthy key = true /\
   (secrets = Returned (Some key) \/
    secrets = FileNotFoundError_or_KeyError /\
    (environ = Some key \/ truthy environ = false /\ text_input = key))) /\
  (forall value environ' text_input',
     secrets = Returned value ->
     load_api_key (Image := Image) secrets environ text_input =
     load_api_key (Image := Image) secrets environ' text_input').
Proof.
  split.
  - unfold load_api_key, check_api_key. split.
    + destruct secrets as [[[|c k]|]| |]; cbn [snd].
      * discriminate.
      * intros [= <-]. split; [reflexivity|]. left. reflexivity.
      * discriminate.
      * destruct environ as [[|c k]|]; cbn [truthy str_truthy snd].
        -- destruct text_input as [|c k]; cbn [snd]; [discriminate|].
           intros [= <-]. split; [reflexivity|]. right. split; [reflexivity|].
           right. split; reflexivity.
        -- intros [= <-]. split; [reflexivity|]. right. split; [reflexivity|].
           left. reflexivity.
        -- destruct text_input as [|c k]; cbn [snd]; [discriminate|].
           intros [= <-]. split; [reflexivity|]. right. split; [reflexivity|].
           right. split; reflexivity.
      * discriminate.
    + intros [T [->|[-> [->|[F ->]]]]];
        destruct key as [|c k]; try discriminate; cbn [truthy str_truthy snd];
        try reflexivity.
      rewrite F. reflexivity.
  - intros value environ' text_input' ->. reflexivity.
Qed.

(** X17: models are made at most once in a session: after an initialisation that
    went through, both entries are filled, with the models that were already
    there when there were any; at most two models were made; and the next
    initialisation makes none and hands out the same two models. *)
Theorem init_models_once
  (key key' : string) (made made' : nat) (slots slots' : ModelSlots Model)
  (drawn : list (Element Image)) (mv mt : Model) :
  init_models Image configure GenerativeModel key made slots
    = ((slots', made'), (drawn, Proceed (mv, mt))) ->
  configure key' = None ->
  slots' = mkSlots (Some mv) (Some mt) /\
  (forall m, model_vision_slot slots = Some m -> mv = m) /\
  (forall m, model_text_slot slots = Some m -> mt = m) /\
  made <= made' <= made + 2 /\
  init_models Image configure GenerativeModel key' made' slots'
    = ((slots', made'), ([], Proceed (mv, mt))).
Proof.
  intros E C. unfold init_models in E.
  destruct (configure key); [discriminate|].
  destruct slots as [sv st]. cbn [model_vision_slot model_text_slot] in *.
  unfold ensure_model in E.
  destruct sv as [v|]; [|destruct (GenerativeModel made _) as [v|e]; [|discriminate]];
    (destruct st as [t|];
     [|match type of E with context [GenerativeModel ?n ?s] =>
         destruct (GenerativeModel n s) as [t|e]; [|discriminate] end]);
    injection E as <- <- <- <- <-;
    unfold init_models; rewrite C; cbn [model_vision_slot model_text_slot ensure_model];
    (split; [reflexivity|]);
    (split; [intros m [= <-] || intros m [=]; reflexivity|]);
    (split; [intros m [= <-] || intros m [=]; reflexivity|]);
    (split; [lia|reflexivity]).
Qed.

(** X18: the initialisation never loses a model: whatever fails, an entry that
    was filled keeps its model; the only ways out are going on or stopping,
    and it stops with exactly the two error messages drawn. *)
Theorem init_models_keeps_entries
  (key : string) (made : nat) (slots : ModelSlots Model) :
  exists slots' made' drawn out,
    init_models Image configure GenerativeModel key made slots
      = ((slots', made'), (drawn, out)) /\
    (model_vision_slot slots = None \/
     model_vision_slot slots' = model_vision_slot slots) /\
    (model_text_slot slots = None \/
     model_text_slot slots' = model_text_slot slots) /\
    match out with
    | Proceed _ => drawn = []
    | Stopped => length drawn = 2
    | Uncaught => False
    end.
Proof.
  unfold init_models, init_failed.
  destruct (configure key).
  - do 4 eexists. split; [reflexivity|]. repeat split; auto.
  - destruct slots as [[v|] [t|]]; cbn [model_vision_slot model_text_slot ensure_model];
      repeat match goal with
             | |- context [GenerativeModel ?n ?s] =>
                 destruct (GenerativeModel n s)
             end;
      do 4 eexists; (split; [reflexivity|]);
      cbn [model_vision_slot model_text_slot]; repeat split; auto.
Qed.

End StartupProperties.

(** * The further theorems on the sample setting *)

Module OnStory.

Import Sample Story.

(** Pressing the camera button on the analysed session opens the camera and
    keeps what is stored. *)
Example camera_reopened_reached :
  session_of (refresh decode vision_up text_up 2 (press_camera "French") analysed_french)
  = Some (session camera_reopened).
Proof. reflexivity. Qed.

(** X3, on the sample: the first analysis of the note, for English, with the model up. *)
Lemma ensure_analysis_success_sample :
  exists r',
    ensure_analysis vision_up "note.png" "English" image_ready
      = (Ret (Some (Some ("Transcript. " ++ vision_prompt "English"))), r') /\
    session r' = mkSession (Some "note.png")
                           (Some ("Transcript. " ++ vision_prompt "English"))
                           false (Some "English") /\
    vision_log r' = [(vision_prompt "English", "note.png")].
Proof.
  apply (ensure_analysis_success string vision_up "note.png" "English"
           ("Transcript. " ++ vision_prompt "English") image_ready);
    reflexivity.
Defined.

(** X4, on the sample: German is asked for after French while the model is down: the French
    result is gone. *)
Lemma ensure_analysis_failure_drops_result_sample :
  let r' := snd (ensure_analysis vision_down "note.png" "German" analysed_french) in
  analysis_result (session r') = Some failure_placeholder /\
  previous_language (session r') = Some "French".
Proof.
  apply (ensure_analysis_failure_drops_result string vision_down
           "note.png" "German" analysed_french _ None);
    reflexivity.
Defined.

(** X7, on the sample: the afternoon, from the initial session. *)
Lemma result_displayable_kept_sample :
  exists r',
    refresh_all decode vision_up text_up afternoon initial = Some r' /\
    result_displayable (session r') = true.
Proof.
  apply (result_displayable_kept string string decode vision_up text_up
           afternoon initial).
  reflexivity.
Defined.

(** X8, on the sample: the same afternoon. *)
Lemma result_matches_image_kept_sample :
  exists r',
    refresh_all decode vision_up text_up afternoon initial = Some r' /\
    result_matches_image vision_up r'.
Proof.
  apply (result_matches_image_kept string string decode vision_up text_up
           afternoon initial).
  intros img t I R. vm_compute in R. discriminate R.
Defined.



(** X11, on the sample: nothing happens on the analysed session. *)
Lemma cached_refresh_sample :
  exists r',
    refresh decode vision_down text_up 2 (idle "French") analysed_french = Some r' /\
    session r' = session analysed_french /\
    vision_log r' = vision_log analysed_french /\
    text_log r' = text_log analysed_french.
Proof.
  apply (cached_refresh string string decode vision_down text_up
           (idle "French") analysed_french "note.png"
           ("Transcript. " ++ vision_prompt "French"));
    reflexivity.
Defined.

(** X12, on the sample: the analysed session is cleared. *)
Lemma clear_refresh_sample :
  exists r1 r',
    script decode vision_up text_up (press_clear "French") analysed_french
      = (RerunException, r1) /\
    refresh decode vision_up text_up 2 (press_clear "French") analysed_french
      = Some r' /\
    session r' = mkSession None None false (Some "French") /\
    vision_log r' = vision_log analysed_french /\
    text_log r' = text_log analysed_french.
Proof.
  apply (clear_refresh string string decode vision_up text_up
           (press_clear "French") analysed_french "note.png");
    reflexivity.
Defined.

(** X17, on the sample: both models are made by the first initialisation and none by the
    second. *)
Lemma init_models_once_sample :
  mkSlots (Some 0) (Some 1) = mkSlots (Some 0) (Some 1) /\
  (forall m, model_vision_slot (mkSlots (@None nat) None) = Some m -> 0 = m) /\
  (forall m, model_text_slot (mkSlots (@None nat) None) = Some m -> 1 = m) /\
  0 <= 2 <= 0 + 2 /\
  init_models string configure GenerativeModel "key" 2 (mkSlots (Some 0) (Some 1))
    = ((mkSlots (Some 0) (Some 1), 2), ([], Proceed (0, 1))).
Proof.
  apply (init_models_once string nat configure GenerativeModel
           "key" "key" 0 2 (mkSlots None None) (mkSlots (Some 0) (Some 1)) [] 0 1);
    reflexivity.
Defined.

End OnStory.
